(** * TapPay API: the authentication and transaction-ledger core

    A shallow embedding of [main.py]: the route handlers [signup], [login],
    [get_profile], [send_money], [get_history] and [dashboard_stats], the
    helpers [create_access_token] and [get_current_user], and the request
    models [UserCreate], [UserLogin] and [TransactionCreate].

    Python dicts are finite maps from keys to values, the database is a map
    from collection names to lists of documents in insertion order, and a
    handler is a computation that threads the database and may raise. *)

From Stdlib Require Import ZArith Ascii String Floats.SpecFloat.
From stdpp Require Import gmap strings list fin_maps sorting.

Set Warnings "-register-all,-clear-no-such-hyp".
Local Open Scope Z_scope.

(** ** ObjectId

    A [bson.ObjectId] holds twelve bytes; [str] prints them as 24 lowercase
    hexadecimal digits and the constructor accepts 24 hexadecimal digits of
    either case, raising [InvalidId] on every other string.  The identifier
    is kept in its printed form. *)

Definition ascii_between (lo hi : N) (c : ascii) : bool :=
  let n := N_of_ascii c in ((lo <=? n) && (n <=? hi))%N.

Definition lower_hex_digit (c : ascii) : bool :=
  ascii_between 48 57 c || ascii_between 97 102 c.

Definition ascii_lower (c : ascii) : ascii :=
  if ascii_between 65 90 c then ascii_of_N (N_of_ascii c + 32) else c.

Fixpoint lower (s : string) : string :=
  match s with
  | EmptyString => EmptyString
  | String c s' => String (ascii_lower c) (lower s')
  end.

Fixpoint string_forallb (p : ascii → bool) (s : string) : bool :=
  match s with
  | EmptyString => true
  | String c s' => p c && string_forallb p s'
  end.

Definition oid_hex_ok (s : string) : bool :=
  (String.length s =? 24)%nat && string_forallb lower_hex_digit s.

Record ObjectId := mkObjectId { oid_hex : string; oid_ok : Is_true (oid_hex_ok oid_hex) }.

(** [ObjectId(s)]: [None] stands for [InvalidId]. *)
Definition ObjectId_of_str (s : string) : option ObjectId :=
  match decide (Is_true (oid_hex_ok (lower s))) with
  | left H => Some (mkObjectId (lower s) H)
  | right _ => None
  end.

(** ** Values and documents *)

Inductive value :=
| VNone
| VStr (s : string)
| VInt (z : Z)
| VFloat (f : spec_float)
| VDatetime (t : Z)          (* milliseconds since the epoch, the resolution BSON keeps *)
| VOid (o : ObjectId).

(** binary64 arithmetic *)
Definition prec : Z := 53.
Definition emax : Z := 1024.
Definition float_add : spec_float → spec_float → spec_float := SFadd prec emax.
Definition float_zero : spec_float := S754_zero false.
Definition float_of_Z (z : Z) : spec_float := binary_normalize prec emax z 0 false.
Definition float_finite (f : spec_float) : bool :=
  match f with S754_zero _ | S754_finite _ _ _ => true | _ => false end.

(** A bearer token.  The compact serialisation and the HMAC are symbolic: a
    signed token is its claims set sealed under the key that signed it, and
    any other string is [Opaque]. *)
Inductive Token :=
| Opaque (s : string)
| Jws (key : string) (claims : gmap string value).

(** What a handler returns and the framework serialises. *)
Inductive body :=
| BVal (v : value)
| BJwt (t : Token)
| BDict (m : gmap string body)
| BList (l : list body).

Definition of_doc (d : gmap string value) : body := BDict (BVal <$> d).

(** ** Exceptions and the handler monad *)

Inductive exn :=
| HTTPException (status_code : Z) (detail : string)
| JWTError
| InvalidId
| KeyError (k : string)
| TypeError
| ValueError
| OverflowError
| DuplicateKeyError
| Unmodelled.        (* an operation outside the fragment embedded here *)

Inductive result (A : Type) :=
| Ok (a : A)
| Raise (e : exn).
Arguments Ok {A} a.
Arguments Raise {A} e.

(** [db]: collection name to documents, in insertion order.  A collection
    that was never written to is empty. *)
Abbreviation Database := (gmap string (list (gmap string value))).

Definition M (A : Type) : Type := Database → result A * Database.

Definition ret {A} (a : A) : M A := λ db, (Ok a, db).
Definition raise {A} (e : exn) : M A := λ db, (Raise e, db).
Definition bind {A B} (m : M A) (k : A → M B) : M B :=
  λ db, match m db with
        | (Ok a, db') => k a db'
        | (Raise e, db') => (Raise e, db')
        end.
Definition lift {A} (r : result A) : M A := λ db, (r, db).

(** [try: m except h]: [h e = None] when no clause matches [e]. *)
Definition try_except {A} (m : M A) (h : exn → option (M A)) : M A :=
  λ db, match m db with
        | (Ok a, db') => (Ok a, db')
        | (Raise e, db') => match h e with
                            | Some k => k db'
                            | None => (Raise e, db')
                            end
        end.

Declare Scope handler_scope.
Delimit Scope handler_scope with handler.
Notation "x <- m ;; k" := (bind m (λ x, k))
  (at level 100, m at next level, right associativity) : handler_scope.
Local Open Scope handler_scope.

(** ** Python primitives used by the handlers *)

(** [d[k]] *)
Definition getitem (d : gmap string value) (k : string) : result value :=
  match d !! k with Some v => Ok v | None => Raise (KeyError k) end.

(** [d.get(k)] and [d.get(k, dflt)] *)
Definition get (d : gmap string value) (k : string) : value := default VNone (d !! k).
Definition get_or (d : gmap string value) (k : string) (dflt : value) : value :=
  default dflt (d !! k).

(** [str(x)] of an ObjectId and of a string, the two kinds of argument the
    handlers pass on a database this program wrote. *)
Definition str (v : value) : result string :=
  match v with
  | VOid o => Ok (oid_hex o)
  | VStr s => Ok s
  | _ => Raise Unmodelled
  end.

(** [float(x)] *)
Definition py_float (v : value) : result value :=
  match v with
  | VInt z => Ok (VFloat (float_of_Z z))
  | VFloat f => Ok (VFloat f)
  | VStr _ => Raise Unmodelled
  | _ => Raise TypeError
  end.

(** [int(x)]: truncation towards zero. *)
Definition py_int (v : value) : result value :=
  match v with
  | VInt z => Ok (VInt z)
  | VFloat (S754_zero _) => Ok (VInt 0)
  | VFloat (S754_finite s m e) =>
      Ok (VInt (cond_Zopp s (Z.shiftl (Z.pos m) e)))
  | VFloat (S754_infinity _) => Raise OverflowError
  | VFloat S754_nan => Raise ValueError
  | VStr _ => Raise Unmodelled
  | _ => Raise TypeError
  end.

(** Truthiness of an optional string ([if payload.toUserId:]) and of the
    result of [find_one] ([if not user_doc:]). *)
Definition truthy_str (o : option string) : bool :=
  match o with
  | Some (String _ _) => true
  | _ => false
  end.

Definition of_opt_str (o : option string) : value :=
  match o with Some s => VStr s | None => VNone end.

Definition falsy (o : option (gmap string value)) : bool :=
  match o with
  | None => true
  | Some d => bool_decide (d = ∅)
  end.

#[global] Instance ObjectId_eq_dec : EqDecision ObjectId.
Proof.
  intros [h1 p1] [h2 p2].
  destruct (decide (h1 = h2)) as [->|Hne].
  - left. f_equal. apply proof_irrel.
  - right. intros [=]. contradiction.
Defined.

#[global] Instance spec_float_eq_dec : EqDecision spec_float.
Proof. solve_decision. Defined.

#[global] Instance value_eq_dec : EqDecision value.
Proof. solve_decision. Defined.

(** ** The document store (pymongo)

    Modelled from the spec: the [database] module, which binds [db], is not
    among the sources.  The store follows the contracts of the Credential
    Store and the Ledger Store (a lookup that finds nothing returns nothing,
    an insert assigns the identifier, [findByUser] orders by timestamp
    descending) through the pymongo calls the handlers make on [db]. *)

Definition coll (db : Database) (name : string) : list (gmap string value) :=
  default [] (db !! name).

(** [{k: v}] *)
Definition field_is (k : string) (v : value) (d : gmap string value) : bool :=
  bool_decide (d !! k = Some v).

(** [{"$or": [{k1: v}, {k2: v}]}] *)
Definition or_is (k1 k2 : string) (v : value) (d : gmap string value) : bool :=
  field_is k1 v d || field_is k2 v d.

(** [db[name].find_one({k: v})]: the first match in natural order. *)
Definition find_one (name k : string) (v : value) : M (option (gmap string value)) :=
  λ db, (Ok (List.find (field_is k v) (coll db name)), db).

(** [db[name].insert_one(d)].  The driver writes a generated [_id] into the
    dict it is handed when the dict has none, so the caller's dict carries
    [_id] after the call; the server refuses an [_id] the collection already
    holds.  The computation returns the dict as the call leaves it together
    with [inserted_id]; [new_id] is the identifier the driver generates. *)
Definition insert_one (name : string) (new_id : ObjectId) (d : gmap string value)
  : M (gmap string value * value) :=
  λ db,
    let d' := match d !! "_id" with
              | Some _ => d
              | None => <["_id" := VOid new_id]> d
              end in
    let inserted_id := get d' "_id" in
    if existsb (field_is "_id" inserted_id) (coll db name)
    then (Raise DuplicateKeyError, db)
    else (Ok (d', inserted_id), <[name := coll db name ++ [d']]> db).

(** [.sort("timestamp", -1)].  Every value other than a date sorts below all
    dates in BSON order, and a missing field sorts as null; the order among
    those is not refined further. *)
Definition sort_key (k : string) (d : gmap string value) : option Z :=
  match d !! k with
  | Some (VDatetime t) => Some t
  | _ => None
  end.

Definition key_le (a b : option Z) : Prop :=
  match a, b with
  | None, _ => True
  | Some _, None => False
  | Some x, Some y => x ≤ y
  end.

Definition desc_by (k : string) (d1 d2 : gmap string value) : Prop :=
  key_le (sort_key k d2) (sort_key k d1).

#[global] Instance key_le_dec a b : Decision (key_le a b).
Proof. destruct a, b; simpl; apply _. Defined.

#[global] Instance desc_by_dec k d1 d2 : Decision (desc_by k d1 d2).
Proof. unfold desc_by. apply _. Defined.

(** [list(db[name].find({"$or": [{k1: v}, {k2: v}]}).sort(k, -1))] *)
Definition find_or_sorted (name k1 k2 : string) (v : value) (k : string)
  : M (list (gmap string value)) :=
  λ db, (Ok (merge_sort (desc_by k) (filter (λ d, Is_true (or_is k1 k2 v d)) (coll db name))), db).

(** *** The aggregation pipeline of [dashboard_stats] *)

(** One step of [$sum]: integers add exactly, an integer met by a double is
    converted, anything that is not a number is skipped.  Doubles accumulate
    in binary64, in the order the documents come. *)
Definition bson_add (acc v : value) : value :=
  match acc, v with
  | VInt a, VInt b => VInt (a + b)
  | VInt a, VFloat g => VFloat (float_add (float_of_Z a) g)
  | VFloat f, VInt b => VFloat (float_add f (float_of_Z b))
  | VFloat f, VFloat g => VFloat (float_add f g)
  | _, _ => acc
  end.

(** [{"$sum": e}] over the documents of a group *)
Definition sum_of (e : gmap string value → value) (docs : list (gmap string value)) : value :=
  fold_left (λ acc d, bson_add acc (e d)) docs (VInt 0).

(** [{"$cond": [{"$eq": ["$k", v]}, a, b]}] *)
Definition cond_eq (k : string) (v : value) (a b : gmap string value → value)
  (d : gmap string value) : value :=
  if bool_decide (get d k = v) then a d else b d.

(** [db["transaction"].aggregate(pipeline)] for the pipeline of
    [dashboard_stats]: [$match] then one [$group] with [_id: None], which
    emits no document for an empty input. *)
Definition aggregate_stats (user_id : string) : M (list (gmap string value)) :=
  λ db,
    let matched := filter (λ d, Is_true (or_is "fromUser" "toUser" (VStr user_id) d))
                     (coll db "transaction") in
    let amount := λ d, get d "amount" in
    let one := λ _ : gmap string value, VInt 1 in
    let zero := λ _ : gmap string value, VInt 0 in
    let group : gmap string value :=
      {[ "_id" := VNone;
         "total_sent" := sum_of (cond_eq "fromUser" (VStr user_id) amount zero) matched;
         "total_received" := sum_of (cond_eq "toUser" (VStr user_id) amount zero) matched;
         "count_sent" := sum_of (cond_eq "fromUser" (VStr user_id) one zero) matched;
         "count_received" := sum_of (cond_eq "toUser" (VStr user_id) one zero) matched ]} in
    (Ok (match matched with [] => [] | _ => [group] end), db).

(** ** Tokens (python-jose) *)

(** [timegm(dt.utctimetuple())]: whole seconds. *)
Definition timegm (t : Z) : Z := t / 1000.

(** [jwt.encode]: a datetime under [exp] is written as whole seconds. *)
Definition jwt_encode (claims : gmap string value) (key : string) : Token :=
  Jws key (match claims !! "exp" with
           | Some (VDatetime t) => <["exp" := VInt (timegm t)]> claims
           | _ => claims
           end).

(** [jwt.decode(token, key)] at time [now]: the signature must verify under
    [key], [exp] must be an integer that is not in the past, and [sub] must be
    a string when it is there.  Tokens issued by [create_access_token] carry
    [sub] and [exp] only; the other registered claims are not examined.
    Every failure is a [JWTError]. *)
Definition jwt_decode (token : Token) (key : string) (now : Z)
  : result (gmap string value) :=
  match token with
  | Opaque _ => Raise JWTError
  | Jws k claims =>
      if negb (String.eqb k key) then Raise JWTError else
      let exp_ok := match claims !! "exp" with
                    | None => true
                    | Some (VInt e) => negb (e <? timegm now)
                    | Some _ => false
                    end in
      let sub_ok := match claims !! "sub" with
                    | None | Some (VStr _) => true
                    | Some _ => false
                    end in
      if exp_ok && sub_ok then Ok claims else Raise JWTError
  end.

(** ** Request models *)

Module UserCreate.
Record t := mk {
  name : string;
  handle : string;
  email : string;
  password : string;
  profileImg : option string
}.
End UserCreate.

Module UserLogin.
Record t := mk {
  email : string;
  password : string
}.
End UserLogin.

Module TransactionCreate.
Record t := mk {
  toHandle : option string;
  toUserId : option string;
  amount : spec_float
}.
End TransactionCreate.

(** [pattern=r"^[a-z0-9_]{3,20}$"] *)
Definition handle_char (c : ascii) : bool :=
  ascii_between 97 122 c || ascii_between 48 57 c || Ascii.eqb c "_".

Definition handle_pattern (s : string) : bool :=
  (3 <=? String.length s)%nat && (String.length s <=? 20)%nat
  && string_forallb handle_char s.

(** [gt=0] *)
Definition gt0 (f : spec_float) : bool := SFltb float_zero f.

Definition ACCESS_TOKEN_EXPIRE_MINUTES : Z := 60 * 24 * 7.

(** [timedelta(minutes=m)] *)
Definition timedelta_minutes (m : Z) : Z := m * 60000.

(** The dict literal that [signup], [login] and [get_profile] each build from
    [user_doc] for the caller. *)
Definition user_view (id : string) (user_doc : gmap string value)
  : result (gmap string body) :=
  match getitem user_doc "name", getitem user_doc "handle", getitem user_doc "dateCreated" with
  | Ok name, Ok handle, Ok dateCreated =>
      Ok {[ "id" := BVal (VStr id);
            "name" := BVal name;
            "handle" := BVal handle;
            "profileImg" := BVal (get user_doc "profileImg");
            "qrCodeUrl" := BVal (get user_doc "qrCodeUrl");
            "dateCreated" := BVal dateCreated ]}
  | Raise e, _, _ => Raise e
  | _, Raise e, _ => Raise e
  | _, _, Raise e => Raise e
  end.

(** [t["id"] = str(t.pop("_id"))] *)
Definition rekey (t : gmap string value) : result (gmap string value) :=
  match getitem t "_id" with
  | Ok v => match str v with
            | Ok s => Ok (<["id" := VStr s]> (delete "_id" t))
            | Raise e => Raise e
            end
  | Raise e => Raise e
  end.

(** [for t in txs: ...], stopping at the first exception. *)
Fixpoint for_each {A B} (f : A → result B) (l : list A) : result (list B) :=
  match l with
  | [] => Ok []
  | x :: l' => match f x with
               | Ok y => match for_each f l' with
                         | Ok ys => Ok (y :: ys)
                         | Raise e => Raise e
                         end
               | Raise e => Raise e
               end
  end.

Section App.

(** The process environment and the libraries the module configures:
    [JWT_SECRET] (or its default), passlib's bcrypt context ([hash] takes
    the salt it draws as an argument) and the check behind [EmailStr]. *)
Variable SECRET_KEY : string.
Variable pwd_context_hash : string → string → string.
Variable pwd_context_verify : string → string → bool.
Variable EmailStr : string → bool.

(** [pwd_context.verify(secret, hash)]: [None] as hash never verifies. *)
Definition verify (secret : string) (hash : value) : result bool :=
  match hash with
  | VStr h => Ok (pwd_context_verify secret h)
  | VNone => Ok false
  | _ => Raise TypeError
  end.

(** *** Helpers *)

Definition create_access_token (data : gmap string value) (expires_delta : option Z)
  (now : Z) : Token :=
  let to_encode := data in
  let delta := match expires_delta with
               | Some d => if d =? 0 then timedelta_minutes ACCESS_TOKEN_EXPIRE_MINUTES else d
               | None => timedelta_minutes ACCESS_TOKEN_EXPIRE_MINUTES
               end in
  let expire := now + delta in
  let to_encode := <["exp" := VDatetime expire]> to_encode in
  jwt_encode to_encode SECRET_KEY.

Definition get_current_user (token : Token) (now : Z) : M (gmap string value) :=
  try_except
    (payload <- lift (jwt_decode token SECRET_KEY now) ;;
     match payload !! "sub" with
     | None | Some VNone => raise (HTTPException 401 "Invalid token")
     | Some (VStr user_id) =>
         match ObjectId_of_str user_id with
         | None => raise InvalidId
         | Some oid =>
             user_doc <- find_one "user" "_id" (VOid oid) ;;
             match user_doc with
             | Some d => if falsy user_doc
                         then raise (HTTPException 401 "User not found")
                         else ret d
             | None => raise (HTTPException 401 "User not found")
             end
         end
     | Some _ => raise TypeError
     end)
    (λ e, match e with
          | JWTError => Some (raise (HTTPException 401 "Token decode error"))
          | _ => None
          end).

(** *** Auth routes *)

Definition signup (payload : UserCreate.t) (now now_token : Z) (salt : string)
  (new_id : ObjectId) : M body :=
  taken <- find_one "user" "handle" (VStr (UserCreate.handle payload)) ;;
  if negb (falsy taken) then raise (HTTPException 400 "Handle already taken") else
  taken <- find_one "user" "email" (VStr (lower (UserCreate.email payload))) ;;
  if negb (falsy taken) then raise (HTTPException 400 "Email already registered") else
  let password_hash := pwd_context_hash salt (UserCreate.password payload) in
  let user_doc : gmap string value :=
    {[ "name" := VStr (UserCreate.name payload);
       "handle" := VStr (UserCreate.handle payload);
       "email" := VStr (lower (UserCreate.email payload));
       "password_hash" := VStr password_hash;
       "profileImg" := of_opt_str (UserCreate.profileImg payload);
       "qrCodeUrl" := VNone;
       "dateCreated" := VDatetime now ]} in
  r <- insert_one "user" new_id user_doc ;;
  let '(user_doc, result_id) := r in
  id <- lift (str result_id) ;;
  let token := create_access_token {[ "sub" := VStr id ]} None now_token in
  view <- lift (user_view id user_doc) ;;
  ret (BDict {[ "token" := BJwt token; "user" := BDict view ]}).

Definition login (payload : UserLogin.t) (now_token : Z) : M body :=
  found <- find_one "user" "email" (VStr (lower (UserLogin.email payload))) ;;
  match found with
  | None => raise (HTTPException 400 "Invalid credentials")
  | Some user_doc =>
      if falsy found then raise (HTTPException 400 "Invalid credentials") else
      ok <- lift (verify (UserLogin.password payload)
                    (get_or user_doc "password_hash" (VStr ""))) ;;
      if negb ok then raise (HTTPException 400 "Invalid credentials") else
      _id <- lift (getitem user_doc "_id") ;;
      id <- lift (str _id) ;;
      let token := create_access_token {[ "sub" := VStr id ]} None now_token in
      view <- lift (user_view id user_doc) ;;
      ret (BDict {[ "token" := BJwt token; "user" := BDict view ]})
  end.

(** *** Profile *)

Definition get_profile (handle : string) : M body :=
  found <- find_one "user" "handle" (VStr handle) ;;
  match found with
  | None => raise (HTTPException 404 "User not found")
  | Some user_doc =>
      if falsy found then raise (HTTPException 404 "User not found") else
      _id <- lift (getitem user_doc "_id") ;;
      id <- lift (str _id) ;;
      view <- lift (user_view id user_doc) ;;
      ret (BDict view)
  end.

(** *** Transactions *)

Definition send_money (payload : TransactionCreate.t) (user : gmap string value)
  (now : Z) (new_id : ObjectId) : M body :=
  to_user <-
    (if truthy_str (TransactionCreate.toUserId payload) then
       try_except
         (match ObjectId_of_str (default "" (TransactionCreate.toUserId payload)) with
          | Some oid => find_one "user" "_id" (VOid oid)
          | None => raise InvalidId
          end)
         (λ _, Some (raise (HTTPException 400 "Invalid toUserId")))
     else if truthy_str (TransactionCreate.toHandle payload) then
       find_one "user" "handle" (of_opt_str (TransactionCreate.toHandle payload))
     else raise (HTTPException 400 "Receiver not specified")) ;;
  match to_user with
  | None => raise (HTTPException 404 "Receiver not found")
  | Some to_doc =>
      if falsy to_user then raise (HTTPException 404 "Receiver not found") else
      from_id <- lift (getitem user "_id") ;;
      fromUser <- lift (str from_id) ;;
      to_id <- lift (getitem to_doc "_id") ;;
      toUser <- lift (str to_id) ;;
      let tx_doc : gmap string value :=
        {[ "fromUser" := VStr fromUser;
           "toUser" := VStr toUser;
           "amount" := VFloat (TransactionCreate.amount payload);
           "timestamp" := VDatetime now ]} in
      r <- insert_one "transaction" new_id tx_doc ;;
      let '(tx_doc, tx_id) := r in
      id <- lift (str tx_id) ;;
      ret (BDict {[ "status" := BVal (VStr "sent");
                    "transaction" := of_doc (tx_doc ∪ {[ "id" := VStr id ]}) ]})
  end.

Definition get_history (userId : string) (user : gmap string value) : M body :=
  _id <- lift (getitem user "_id") ;;
  uid <- lift (str _id) ;;
  if negb (String.eqb uid userId) then raise (HTTPException 403 "Forbidden") else
  txs <- find_or_sorted "transaction" "fromUser" "toUser" (VStr userId) "timestamp" ;;
  txs <- lift (for_each rekey txs) ;;
  ret (BList (of_doc <$> txs)).

Definition dashboard_stats (user : gmap string value) : M body :=
  _id <- lift (getitem user "_id") ;;
  user_id <- lift (str _id) ;;
  agg <- aggregate_stats user_id ;;
  let stats : gmap string value :=
    match agg with
    | d :: _ => d
    | [] => {[ "total_sent" := VFloat float_zero;
               "total_received" := VFloat float_zero;
               "count_sent" := VInt 0;
               "count_received" := VInt 0 ]}
    end in
  total_sent <- lift (py_float (get_or stats "total_sent" (VFloat float_zero))) ;;
  total_received <- lift (py_float (get_or stats "total_received" (VFloat float_zero))) ;;
  count_sent <- lift (py_int (get_or stats "count_sent" (VInt 0))) ;;
  count_received <- lift (py_int (get_or stats "count_received" (VInt 0))) ;;
  ret (BDict {[ "total_sent" := BVal total_sent;
                "total_received" := BVal total_received;
                "count_sent" := BVal count_sent;
                "count_received" := BVal count_received ]}).

End App.

(** ** The framework around the handlers (FastAPI) *)

Record Response := mkResponse { status : Z; content : option body }.

(** What the default JSON response can carry: an ObjectId has no encoder and
    a float must be finite ([allow_nan=False]). *)
Fixpoint jsonable (b : body) : bool :=
  match b with
  | BVal (VOid _) => false
  | BVal (VFloat f) => float_finite f
  | BVal _ => true
  | BJwt _ => true
  | BDict m => map_fold (λ _ b' acc, jsonable b' && acc) true m
  | BList l => forallb jsonable l
  end.

(** A returned value is encoded and sent with 200, an [HTTPException]
    becomes its status with [{"detail": ...}], and anything else that escapes
    (an encoder failure included) is a bare 500. *)
Definition respond (r : result body) : Response :=
  match r with
  | Ok b => if jsonable b then mkResponse 200 (Some b) else mkResponse 500 None
  | Raise (HTTPException code detail) =>
      mkResponse code (Some (BDict {[ "detail" := BVal (VStr detail) ]}))
  | Raise _ => mkResponse 500 None
  end.

(** A body that fails its model's field constraints never reaches the
    handler: the framework answers 422 and lists the offending fields. *)
Definition unprocessable (fields : list string) : Response :=
  mkResponse 422 (Some (BDict {[ "detail" := BList ((λ f, BVal (VStr f)) <$> fields) ]})).

Definition run (m : M body) (db : Database) : Response * Database :=
  let '(r, db') := m db in (respond r, db').

Section Routes.

Variable SECRET_KEY : string.
Variable pwd_context_hash : string → string → string.
Variable pwd_context_verify : string → string → bool.
Variable EmailStr : string → bool.

Definition UserCreate_errors (p : UserCreate.t) : list string :=
  (if handle_pattern (UserCreate.handle p) then [] else ["handle"])
  ++ (if EmailStr (UserCreate.email p) then [] else ["email"]).

Definition UserLogin_errors (p : UserLogin.t) : list string :=
  if EmailStr (UserLogin.email p) then [] else ["email"].

Definition TransactionCreate_errors (p : TransactionCreate.t) : list string :=
  if gt0 (TransactionCreate.amount p) then [] else ["amount"].

(** [@app.post("/auth/signup")] *)
Definition post_auth_signup (payload : UserCreate.t) (now now_token : Z) (salt : string)
  (new_id : ObjectId) (db : Database) : Response * Database :=
  match UserCreate_errors payload with
  | [] => run (signup SECRET_KEY pwd_context_hash payload now now_token salt new_id) db
  | errs => (unprocessable errs, db)
  end.

(** [@app.post("/auth/login")] *)
Definition post_auth_login (payload : UserLogin.t) (now_token : Z) (db : Database)
  : Response * Database :=
  match UserLogin_errors payload with
  | [] => run (login SECRET_KEY pwd_context_verify payload now_token) db
  | errs => (unprocessable errs, db)
  end.

(** [@app.get("/profile/{handle}")] *)
Definition get_profile_route (handle : string) (db : Database) : Response * Database :=
  run (get_profile handle) db.

(** A route with [user=Depends(get_current_user)]: the dependency runs
    first and its exception is the response; the body is validated next. *)
Definition authenticated (credentials : Token) (now : Z) (errs : list string)
  (handler : gmap string value → M body) (db : Database) : Response * Database :=
  match get_current_user SECRET_KEY credentials now db with
  | (Ok user, db') =>
      match errs with
      | [] => run (handler user) db'
      | _ => (unprocessable errs, db')
      end
  | (Raise e, db') => (respond (Raise e), db')
  end.

(** [@app.post("/transaction/send")] *)
Definition post_transaction_send (credentials : Token) (payload : TransactionCreate.t)
  (now now_tx : Z) (new_id : ObjectId) : Database → Response * Database :=
  authenticated credentials now (TransactionCreate_errors payload)
    (λ user, send_money payload user now_tx new_id).


(** [@app.get("/dashboard/stats")] *)
Definition get_dashboard_stats (credentials : Token) (now : Z)
  : Database → Response * Database :=
  authenticated credentials now [] (λ user, dashboard_stats user).

End Routes.

(** ** Vocabulary of the statements *)

Definition users (db : Database) : list (gmap string value) := coll db "user".
Definition ledger (db : Database) : list (gmap string value) := coll db "transaction".

Definition sent_by (u : string) (t : gmap string value) : Prop :=
  t !! "fromUser" = Some (VStr u).
Definition received_by (u : string) (t : gmap string value) : Prop :=
  t !! "toUser" = Some (VStr u).
Definition involves (u : string) (t : gmap string value) : Prop :=
  sent_by u t ∨ received_by u t.

#[global] Instance sent_by_dec u t : Decision (sent_by u t).
Proof. unfold sent_by. apply _. Defined.
#[global] Instance received_by_dec u t : Decision (received_by u t).
Proof. unfold received_by. apply _. Defined.
#[global] Instance involves_dec u t : Decision (involves u t).
Proof. unfold involves. apply _. Defined.

(** The amount a ledger record carries, and the binary64 sum of a list of
    amounts taken from left to right. *)
Definition amount_of (t : gmap string value) : spec_float :=
  match t !! "amount" with
  | Some (VFloat f) => f
  | _ => float_zero
  end.

Definition float_sum (l : list spec_float) : spec_float :=
  fold_left float_add l float_zero.

(** The sign bit is clear (or the float is a NaN). *)
Definition nonneg (x : spec_float) : Prop :=
  match x with
  | S754_zero s | S754_infinity s | S754_finite s _ _ => s = false
  | S754_nan => True
  end.

(** A ledger record as [send_money] writes it: an ObjectId under [_id] and
    an amount that passed [gt=0]. *)
Definition tx_ok (t : gmap string value) : bool :=
  match t !! "_id", t !! "amount" with
  | Some (VOid _), Some (VFloat f) => gt0 f
  | _, _ => false
  end.

Definition ledger_ok (db : Database) : Prop := forallb tx_ok (ledger db) = true.

(** The databases the API can bring about: the two routes that write are
    signup and send. *)
Inductive reachable (SECRET_KEY : string) (pwd_context_hash : string → string → string)
  (EmailStr : string → bool) : Database → Prop :=
| reachable_empty : reachable SECRET_KEY pwd_context_hash EmailStr ∅
| reachable_signup db payload now now_token salt new_id :
    reachable SECRET_KEY pwd_context_hash EmailStr db →
    reachable SECRET_KEY pwd_context_hash EmailStr
      (snd (post_auth_signup SECRET_KEY pwd_context_hash EmailStr
              payload now now_token salt new_id db))
| reachable_send db credentials payload now now_tx new_id :
    reachable SECRET_KEY pwd_context_hash EmailStr db →
    reachable SECRET_KEY pwd_context_hash EmailStr
      (snd (post_transaction_send SECRET_KEY credentials payload now now_tx new_id db)).

(** What the aggregation has summed so far, against the binary64 sum [s]:
    nothing but integer zeros, or the double [s]. *)
Definition acc_rel (acc : value) (s : spec_float) : Prop :=
  (acc = VInt 0 ∧ s = float_zero) ∨ (acc = VFloat s ∧ nonneg s).

(** The public form of a record: [_id] gone, its printed form under [id]. *)
Definition public (t : gmap string value) : gmap string value :=
  match t !! "_id" with
  | Some (VOid o) => <["id" := VStr (oid_hex o)]> (delete "_id" t)
  | _ => t
  end.

(** The user record [signup] stores. *)
Definition stored_user (pwd_context_hash : string → string → string)
  (payload : UserCreate.t) (now : Z) (salt : string) (new_id : ObjectId)
  : gmap string value :=
  <["_id" := VOid new_id]>
    {[ "name" := VStr (UserCreate.name payload);
       "handle" := VStr (UserCreate.handle payload);
       "email" := VStr (lower (UserCreate.email payload));
       "password_hash" := VStr (pwd_context_hash salt (UserCreate.password payload));
       "profileImg" := of_opt_str (UserCreate.profileImg payload);
       "qrCodeUrl" := VNone;
       "dateCreated" := VDatetime now ]}.

(** The claims [create_access_token] seals for [{"sub": sub}] at [issued]. *)
Definition issued_claims (sub : string) (issued : Z) : gmap string value :=
  <["exp" := VInt (timegm (issued + timedelta_minutes ACCESS_TOKEN_EXPIRE_MINUTES))]>
    (<["exp" := VDatetime (issued + timedelta_minutes ACCESS_TOKEN_EXPIRE_MINUTES)]>
       {[ "sub" := VStr sub ]}).

(** The ledger record [send_money] stores. *)
Definition stored_tx (fromUser toUser : string) (amount : spec_float) (now : Z)
  (new_id : ObjectId) : gmap string value :=
  <["_id" := VOid new_id]>
    {[ "fromUser" := VStr fromUser;
       "toUser" := VStr toUser;
       "amount" := VFloat amount;
       "timestamp" := VDatetime now ]}.

(** The receiver reference of a request resolves to the user record [r]. *)
Inductive resolves (db : Database) : TransactionCreate.t → gmap string value → Prop :=
| resolves_by_id h s a o r :
    s ≠ "" →
    ObjectId_of_str s = Some o →
    List.find (field_is "_id" (VOid o)) (users db) = Some r →
    resolves db (TransactionCreate.mk h (Some s) a) r
| resolves_by_handle i h a r :
    truthy_str i = false →
    h ≠ "" →
    List.find (field_is "handle" (VStr h)) (users db) = Some r →
    resolves db (TransactionCreate.mk (Some h) i a) r.

(** A supplied receiver reference is one the handler treats as given: a
    string that is there and is not empty. *)
Definition supplied (o : option string) : Prop := ∃ s, o = Some s ∧ s ≠ "".

(** The six fields of the public user view. *)
Definition public_fields : gset string :=
  {[ "id"; "name"; "handle"; "profileImg"; "qrCodeUrl"; "dateCreated" ]}.

(** A user view with the given values under the six fields. *)
Definition view_of (id name handle profileImg qrCodeUrl dateCreated : value)
  : gmap string body :=
  {[ "id" := BVal id;
     "name" := BVal name;
     "handle" := BVal handle;
     "profileImg" := BVal profileImg;
     "qrCodeUrl" := BVal qrCodeUrl;
     "dateCreated" := BVal dateCreated ]}.

(** Every key that occurs anywhere in a body. *)
Fixpoint keys_of (b : body) : gset string :=
  match b with
  | BVal _ | BJwt _ => ∅
  | BDict m => map_fold (λ k b' acc, {[ k ]} ∪ keys_of b' ∪ acc) ∅ m
  | BList l => foldr (λ b' acc, keys_of b' ∪ acc) ∅ l
  end.

Definition hides_password (b : body) : Prop := "password_hash" ∉ keys_of b.

(** ** A small deployment, used to run the statements on concrete data *)

Module Fixture.

Definition secret : string := "dev-secret".
Definition hash (salt pw : string) : string := salt +:+ "$" +:+ pw.
Definition check (pw h : string) : bool :=
  String.eqb (String.substring 3 (String.length h - 3) h) pw.
Definition any_email (s : string) : bool := true.

Definition oid (s : string) : ObjectId :=
  default (mkObjectId "000000000000000000000000" I) (ObjectId_of_str s).

Definition ann_id : ObjectId := oid "64b7f0000000000000000001".
Definition bob_id : ObjectId := oid "64b7f0000000000000000002".
Definition tx1_id : ObjectId := oid "64b7f00000000000000000a1".
Definition tx2_id : ObjectId := oid "64b7f00000000000000000a2".

Definition ann : UserCreate.t := UserCreate.mk "Ann" "ann1" "a@x.com" "pw" None.
Definition bob : UserCreate.t := UserCreate.mk "Bob" "bob_2" "Bob@x.com" "pw2" (Some "http://img").

(** 1.0 and 2.5 *)
Definition one : spec_float := S754_finite false 4503599627370496 (-52).
Definition two_and_half : spec_float := S754_finite false 5629499534213120 (-51).

Definition db0 : Database := ∅.
Definition db1 : Database :=
  snd (post_auth_signup secret hash any_email ann 1000 1001 "s1" ann_id db0).
Definition db2 : Database :=
  snd (post_auth_signup secret hash any_email bob 2000 2001 "s2" bob_id db1).

Definition db1_ann : gmap string value :=
  stored_user hash ann 1000 "s1" ann_id.

Definition ann_token : Token :=
  create_access_token secret {[ "sub" := VStr (oid_hex ann_id) ]} None 1001.
Definition bob_token : Token :=
  create_access_token secret {[ "sub" := VStr (oid_hex bob_id) ]} None 2001.

Definition ann_doc : gmap string value :=
  default ∅ (List.find (field_is "_id" (VOid ann_id)) (users db2)).
Definition bob_doc : gmap string value :=
  default ∅ (List.find (field_is "_id" (VOid bob_id)) (users db2)).

Definition to_bob : TransactionCreate.t :=
  TransactionCreate.mk (Some "bob_2") None one.
Definition to_ann : TransactionCreate.t :=
  TransactionCreate.mk None (Some (oid_hex ann_id)) two_and_half.

Definition db3 : Database :=
  snd (post_transaction_send secret ann_token to_bob 5000 5001 tx1_id db2).
Definition db4 : Database :=
  snd (post_transaction_send secret bob_token to_ann 6000 6001 tx2_id db3).

End Fixture.

(** ** The routes and helpers outside the ledger core *)

Module HandleCheck.
Record t := mk { handle : string; available : bool }.
End HandleCheck.

(** [@app.get("/handle/check/{handle}")]; the dict it returns has the two
    keys of [HandleCheck.t]. *)
Definition check_handle (handle : string) : M HandleCheck.t :=
  found <- find_one "user" "handle" (VStr handle) ;;
  let exists_ := match found with
                 | Some _ => true
                 | None => false
                 end in
  ret (HandleCheck.mk handle (negb exists_)).

(** [s.rstrip('/')] *)
Fixpoint rstrip_slash (s : string) : string :=
  match s with
  | EmptyString => EmptyString
  | String c s' =>
      match rstrip_slash s' with
      | EmptyString => if Ascii.eqb c "/" then EmptyString else String c EmptyString
      | r => String c r
      end
  end.

(** The link [qr_for_handle] hands to the QR encoder:
    [f"{base.rstrip('/')}/{handle}"], [base] being [APP_BASE_URL] or its
    default. *)
Definition qr_link (APP_BASE_URL : option string) (handle : string) : string :=
  let base := default "https://tappay.me" APP_BASE_URL in
  rstrip_slash base +:+ "/" +:+ handle.

(** ** Vocabulary of the invariants *)

(** The values the documents of a collection hold under a key. *)
Definition field_values (k : string) (l : list (gmap string value)) : list (option value) :=
  (λ d, d !! k) <$> l.

(** A user record as [signup] writes it behind the validation of
    [UserCreate]. *)
Definition user_ok (d : gmap string value) : Prop :=
  ∃ o h e,
    d !! "_id" = Some (VOid o)
    ∧ d !! "handle" = Some (VStr h) ∧ handle_pattern h = true
    ∧ d !! "email" = Some (VStr e) ∧ lower e = e
    ∧ is_Some (d !! "name") ∧ is_Some (d !! "password_hash")
    ∧ is_Some (d !! "dateCreated").

Definition users_unique (db : Database) : Prop :=
  NoDup (field_values "handle" (users db))
  ∧ NoDup (field_values "email" (users db))
  ∧ NoDup (field_values "_id" (users db)).

(** Sender and receiver of a ledger record are stored users. *)
Definition refers_to_users (db : Database) (t : gmap string value) : Prop :=
  ∃ s r so ro,
    s ∈ users db ∧ r ∈ users db
    ∧ s !! "_id" = Some (VOid so) ∧ r !! "_id" = Some (VOid ro)
    ∧ t !! "fromUser" = Some (VStr (oid_hex so))
    ∧ t !! "toUser" = Some (VStr (oid_hex ro)).

(** The view [signup] returns for a payload. *)
Definition signup_view (payload : UserCreate.t) (now : Z) (new_id : ObjectId)
  : gmap string body :=
  view_of (VStr (oid_hex new_id)) (VStr (UserCreate.name payload))
    (VStr (UserCreate.handle payload)) (of_opt_str (UserCreate.profileImg payload))
    VNone (VDatetime now).

(** * Properties *)

Arguments coll : simpl never.

(** ** ObjectIds *)

Lemma oid_ext (o1 o2 : ObjectId) : oid_hex o1 = oid_hex o2 → o1 = o2.
Proof.
  destruct o1 as [h1 p1], o2 as [h2 p2]; simpl; intros ->.
  f_equal. apply proof_irrel.
Qed.

Lemma lower_hex_digit_fixed c : lower_hex_digit c = true → ascii_lower c = c.
Proof.
  unfold lower_hex_digit, ascii_lower, ascii_between.
  intros H.
  destruct ((65 <=? N_of_ascii c)%N && (N_of_ascii c <=? 90)%N) eqn:E; [|done].
  exfalso. rewrite !orb_true_iff, !andb_true_iff, !N.leb_le in H.
  rewrite andb_true_iff, !N.leb_le in E. lia.
Qed.

Lemma lower_fixed s : string_forallb lower_hex_digit s = true → lower s = s.
Proof.
  induction s as [|c s IH]; simpl; [done|].
  rewrite andb_true_iff. intros [Hc Hs].
  by rewrite lower_hex_digit_fixed, IH.
Qed.

Lemma oid_hex_lower o : lower (oid_hex o) = oid_hex o.
Proof.
  destruct o as [h p]; simpl. apply lower_fixed.
  apply Is_true_true in p. unfold oid_hex_ok in p.
  by apply andb_true_iff in p as [_ ?].
Qed.

Lemma ObjectId_of_str_hex o : ObjectId_of_str (oid_hex o) = Some o.
Proof.
  unfold ObjectId_of_str.
  destruct (decide _) as [H|H].
  - f_equal. apply oid_ext; simpl. apply oid_hex_lower.
  - exfalso. apply H. rewrite oid_hex_lower. apply (oid_ok o).
Qed.

Lemma oid_hex_nonempty o : oid_hex o ≠ "".
Proof.
  destruct o as [h p]; simpl. intros ->. by vm_compute in p.
Qed.

Lemma truthy_str_supplied o : truthy_str o = true ↔ supplied o.
Proof.
  unfold supplied. split.
  - destruct o as [[|c s]|]; simpl; try discriminate. intros _. by eexists.
  - intros (s & -> & Hs). by destruct s.
Qed.

(** ** The store *)

Lemma find_field_is_Some k v (l : list (gmap string value)) d :
  List.find (field_is k v) l = Some d → d ∈ l ∧ d !! k = Some v.
Proof.
  intros H. apply find_some in H as [Hin Hf].
  split; [by apply list_elem_of_In|].
  unfold field_is in Hf. by apply bool_decide_eq_true in Hf.
Qed.

Lemma falsy_find k v (l : list (gmap string value)) :
  falsy (List.find (field_is k v) l) = bool_decide (List.find (field_is k v) l = None).
Proof.
  destruct (List.find _ l) as [d|] eqn:E; simpl; [|done].
  apply find_field_is_Some in E as [_ E].
  rewrite bool_decide_eq_false_2; [done|].
  intros ->. by rewrite lookup_empty in E.
Qed.


Lemma coll_insert name name' l (db : Database) :
  coll (<[name := l]> db) name' = if decide (name = name') then l else coll db name'.
Proof.
  unfold coll. rewrite lookup_insert. by destruct (decide _).
Qed.

Lemma insert_one_fresh name new_id (d : gmap string value) db :
  d !! "_id" = None →
  existsb (field_is "_id" (VOid new_id)) (coll db name) = false →
  insert_one name new_id d db
  = (Ok (<["_id" := VOid new_id]> d, VOid new_id),
     <[name := coll db name ++ [<["_id" := VOid new_id]> d]]> db).
Proof.
  intros Hd Hfresh. unfold insert_one, get. rewrite Hd.
  rewrite lookup_insert_eq. simpl. by rewrite Hfresh.
Qed.

Lemma insert_one_duplicate name new_id (d : gmap string value) db :
  d !! "_id" = None →
  existsb (field_is "_id" (VOid new_id)) (coll db name) = true →
  insert_one name new_id d db = (Raise DuplicateKeyError, db).
Proof.
  intros Hd Hdup. unfold insert_one, get. rewrite Hd.
  rewrite lookup_insert_eq. simpl. by rewrite Hdup.
Qed.

(** ** Signup *)

Section Signup.
Variable SECRET_KEY : string.
Variable pwd_context_hash : string → string → string.

Lemma signup_handle_taken payload now now_token salt new_id db d :
  List.find (field_is "handle" (VStr (UserCreate.handle payload))) (users db) = Some d →
  signup SECRET_KEY pwd_context_hash payload now now_token salt new_id db
  = (Raise (HTTPException 400 "Handle already taken"), db).
Proof.
  intros H. unfold signup, bind, find_one, users in *.
  rewrite falsy_find, H. reflexivity.
Qed.

Lemma signup_email_taken payload now now_token salt new_id db d :
  List.find (field_is "handle" (VStr (UserCreate.handle payload))) (users db) = None →
  List.find (field_is "email" (VStr (lower (UserCreate.email payload)))) (users db) = Some d →
  signup SECRET_KEY pwd_context_hash payload now now_token salt new_id db
  = (Raise (HTTPException 400 "Email already registered"), db).
Proof.
  intros H1 H2. unfold signup, bind, find_one, users in *.
  rewrite falsy_find, H1. simpl.
  rewrite falsy_find, H2. reflexivity.
Qed.

Lemma signup_ok payload now now_token salt new_id db :
  List.find (field_is "handle" (VStr (UserCreate.handle payload))) (users db) = None →
  List.find (field_is "email" (VStr (lower (UserCreate.email payload)))) (users db) = None →
  existsb (field_is "_id" (VOid new_id)) (users db) = false →
  signup SECRET_KEY pwd_context_hash payload now now_token salt new_id db
  = (Ok (BDict {[ "token" := BJwt (create_access_token SECRET_KEY
                                    {[ "sub" := VStr (oid_hex new_id) ]} None now_token);
                  "user" := BDict {[ "id" := BVal (VStr (oid_hex new_id));
                                     "name" := BVal (VStr (UserCreate.name payload));
                                     "handle" := BVal (VStr (UserCreate.handle payload));
                                     "profileImg" := BVal (of_opt_str (UserCreate.profileImg payload));
                                     "qrCodeUrl" := BVal VNone;
                                     "dateCreated" := BVal (VDatetime now) ]} ]}),
     <["user" := users db ++ [stored_user pwd_context_hash payload now salt new_id]]> db).
Proof.
  intros H1 H2 H3. unfold signup, bind, find_one, users in *.
  rewrite falsy_find, H1. simpl.
  rewrite falsy_find, H2. simpl.
  rewrite insert_one_fresh; [|reflexivity|done].
  reflexivity.
Qed.
End Signup.

(** ** Tokens and the authentication dependency *)

Section Auth.
Variable SECRET_KEY : string.

Lemma create_access_token_claims sub issued :
  create_access_token SECRET_KEY {[ "sub" := VStr sub ]} None issued
  = Jws SECRET_KEY (issued_claims sub issued).
Proof. reflexivity. Qed.

Lemma issued_claims_sub sub issued : issued_claims sub issued !! "sub" = Some (VStr sub).
Proof. reflexivity. Qed.

Lemma jwt_decode_issued sub issued now :
  jwt_decode (Jws SECRET_KEY (issued_claims sub issued)) SECRET_KEY now
  = if timegm (issued + timedelta_minutes ACCESS_TOKEN_EXPIRE_MINUTES) <? timegm now
    then Raise JWTError else Ok (issued_claims sub issued).
Proof.
  unfold jwt_decode. rewrite String.eqb_refl. simpl negb.
  change (issued_claims sub issued !! "exp")
    with (Some (VInt (timegm (issued + timedelta_minutes ACCESS_TOKEN_EXPIRE_MINUTES)))).
  rewrite issued_claims_sub.
  by destruct (_ <? _).
Qed.

Lemma get_current_user_issued (o : ObjectId) issued now db d :
  timegm now ≤ timegm (issued + timedelta_minutes ACCESS_TOKEN_EXPIRE_MINUTES) →
  List.find (field_is "_id" (VOid o)) (users db) = Some d →
  get_current_user SECRET_KEY
    (create_access_token SECRET_KEY {[ "sub" := VStr (oid_hex o) ]} None issued) now db
  = (Ok d, db).
Proof.
  intros Ht Hd. rewrite create_access_token_claims.
  unfold get_current_user, try_except, bind, lift.
  rewrite jwt_decode_issued.
  destruct (_ <? _) eqn:E; [apply Z.ltb_lt in E; lia|].
  rewrite issued_claims_sub, ObjectId_of_str_hex.
  unfold find_one, users in *. rewrite Hd. simpl.
  apply find_field_is_Some in Hd as [_ Hd].
  rewrite bool_decide_eq_false_2; [done|].
  intros ->. by rewrite lookup_empty in Hd.
Qed.

(** Whoever the dependency lets through is a stored user with an ObjectId,
    and the store is left as it was. *)
Lemma get_current_user_Ok token now db user db' :
  get_current_user SECRET_KEY token now db = (Ok user, db') →
  db' = db ∧ user ∈ users db ∧ ∃ o, user !! "_id" = Some (VOid o).
Proof.
  unfold get_current_user, try_except, bind, lift, raise, ret, find_one.
  destruct (jwt_decode token SECRET_KEY now) as [payload|[]]; try discriminate.
  destruct (payload !! "sub") as [[]|]; simpl; try discriminate.
  destruct (ObjectId_of_str s) as [o|]; simpl; try discriminate.
  destruct (List.find _ _) as [d|] eqn:E; simpl; try discriminate.
  destruct (bool_decide (d = ∅)); simpl; intros [= <- <-].
  apply find_field_is_Some in E as [? ?]. eauto.
Qed.
End Auth.

Section C1.
Variable SECRET_KEY : string.
Variable pwd_context_hash : string → string → string.
Variable EmailStr : string → bool.

End C1.

(** ** Sending *)

Lemma send_money_id_first h s a user now new_id db :
  s ≠ "" →
  send_money (TransactionCreate.mk h (Some s) a) user now new_id db
  = send_money (TransactionCreate.mk None (Some s) a) user now new_id db.
Proof. intros Hs. by destruct s. Qed.

Lemma send_money_not_specified payload user now new_id db :
  truthy_str (TransactionCreate.toUserId payload) = false →
  truthy_str (TransactionCreate.toHandle payload) = false →
  send_money payload user now new_id db
  = (Raise (HTTPException 400 "Receiver not specified"), db).
Proof. intros Hi Hh. unfold send_money, bind, raise. by rewrite Hi, Hh. Qed.

Lemma send_money_invalid_id h s a user now new_id db :
  s ≠ "" → ObjectId_of_str s = None →
  send_money (TransactionCreate.mk h (Some s) a) user now new_id db
  = (Raise (HTTPException 400 "Invalid toUserId"), db).
Proof.
  intros Hs Ho. unfold send_money, bind, raise, try_except. simpl.
  destruct s; [done|]. simpl. by rewrite Ho.
Qed.

Lemma send_money_id_not_found h s a o user now new_id db :
  s ≠ "" → ObjectId_of_str s = Some o →
  List.find (field_is "_id" (VOid o)) (users db) = None →
  send_money (TransactionCreate.mk h (Some s) a) user now new_id db
  = (Raise (HTTPException 404 "Receiver not found"), db).
Proof.
  intros Hs Ho Hf. unfold send_money, bind, raise, try_except, find_one, users in *. simpl.
  destruct s; [done|]. simpl. by rewrite Ho, Hf.
Qed.

Lemma send_money_handle_not_found i h a user now new_id db :
  truthy_str i = false → h ≠ "" →
  List.find (field_is "handle" (VStr h)) (users db) = None →
  send_money (TransactionCreate.mk (Some h) i a) user now new_id db
  = (Raise (HTTPException 404 "Receiver not found"), db).
Proof.
  intros Hi Hh Hf. unfold send_money, bind, raise, try_except, find_one, users in *. simpl.
  rewrite Hi. destruct h; [done|]. simpl. by rewrite Hf.
Qed.

Lemma send_money_ok payload user now new_id db r u ro :
  resolves db payload r →
  user !! "_id" = Some (VOid u) →
  r !! "_id" = Some (VOid ro) →
  existsb (field_is "_id" (VOid new_id)) (ledger db) = false →
  let tx := stored_tx (oid_hex u) (oid_hex ro) (TransactionCreate.amount payload) now new_id in
  send_money payload user now new_id db
  = (Ok (BDict {[ "status" := BVal (VStr "sent");
                  "transaction" := of_doc (tx ∪ {[ "id" := VStr (oid_hex new_id) ]}) ]}),
     <["transaction" := ledger db ++ [tx]]> db).
Proof.
  intros Hres Hu Hr Hfresh tx.
  assert (Hne : r ≠ ∅) by (intros ->; by rewrite lookup_empty in Hr).
  destruct Hres as [h s a o r Hs Ho Hf|i h a r Hi Hh Hf];
    unfold send_money, bind, raise, try_except, find_one, lift, getitem, users, ledger in *;
    simpl.
  - destruct s; [done|]. simpl. rewrite Ho, Hf. simpl.
    rewrite bool_decide_eq_false_2 by done.
    rewrite Hu, Hr. simpl.
    rewrite insert_one_fresh; [|reflexivity|done].
    reflexivity.
  - rewrite Hi. destruct h; [done|]. simpl. rewrite Hf. simpl.
    rewrite bool_decide_eq_false_2 by done.
    rewrite Hu, Hr. simpl.
    rewrite insert_one_fresh; [|reflexivity|done].
    reflexivity.
Qed.

Lemma send_money_body_raw_id fromUser toUser a now new_id :
  jsonable (BDict {[ "status" := BVal (VStr "sent");
                     "transaction" := of_doc (stored_tx fromUser toUser a now new_id
                                                ∪ {[ "id" := VStr (oid_hex new_id) ]}) ]})
  = false.
Proof. destruct a; reflexivity. Qed.

Lemma send_money_never_invalid_without_id h a user now new_id db :
  fst (send_money (TransactionCreate.mk h None a) user now new_id db)
  ≠ Raise (HTTPException 400 "Invalid toUserId").
Proof.
  unfold send_money, bind, raise, ret, try_except, find_one, lift, getitem, str. simpl.
  destruct (truthy_str h); simpl; [|discriminate].
  destruct (List.find _ _) as [to_doc|]; simpl; [|discriminate].
  destruct (bool_decide _); simpl; [discriminate|].
  destruct (user !! "_id") as [[]|]; simpl; try discriminate;
    destruct (to_doc !! "_id") as [[]|]; simpl; try discriminate;
    (destruct (existsb (field_is "_id" (VOid new_id)) (coll db "transaction")) eqn:E;
     [rewrite insert_one_duplicate by done|rewrite insert_one_fresh by done];
     simpl; discriminate).
Qed.

(** C6.  In [send_money], with [supplied] read as the handler reads it (a
    string that is there and not empty): when both references are supplied the
    handle plays no part, the request behaves as the same request without it;
    when neither is supplied the handler raises 400 "Receiver not specified";
    when the reference that is used finds no user it raises 404 "Receiver not
    found"; when the supplied id is no ObjectId it raises 400 "Invalid
    toUserId"; and every one of these failures leaves the database as it
    was. *)
Theorem C6_receiver_resolution user now new_id db :
  (∀ payload,
     supplied (TransactionCreate.toUserId payload) →
     supplied (TransactionCreate.toHandle payload) →
     send_money payload user now new_id db
     = send_money (TransactionCreate.mk None (TransactionCreate.toUserId payload)
                     (TransactionCreate.amount payload)) user now new_id db)
  ∧ (∀ payload,
       ¬ supplied (TransactionCreate.toUserId payload) →
       ¬ supplied (TransactionCreate.toHandle payload) →
       send_money payload user now new_id db
       = (Raise (HTTPException 400 "Receiver not specified"), db))
  ∧ (∀ h s a o,
       supplied (Some s) → ObjectId_of_str s = Some o →
       List.find (field_is "_id" (VOid o)) (users db) = None →
       send_money (TransactionCreate.mk h (Some s) a) user now new_id db
       = (Raise (HTTPException 404 "Receiver not found"), db))
  ∧ (∀ i h a,
       ¬ supplied i → supplied (Some h) →
       List.find (field_is "handle" (VStr h)) (users db) = None →
       send_money (TransactionCreate.mk (Some h) i a) user now new_id db
       = (Raise (HTTPException 404 "Receiver not found"), db))
  ∧ (∀ h s a,
       supplied (Some s) → ObjectId_of_str s = None →
       send_money (TransactionCreate.mk h (Some s) a) user now new_id db
       = (Raise (HTTPException 400 "Invalid toUserId"), db)).
Proof.
  split_and!.
  - intros [h i a]; simpl. intros (s & -> & Hs) _. by apply send_money_id_first.
  - intros payload Hi Hh. apply send_money_not_specified.
    + destruct (truthy_str _) eqn:E; [|done]. by apply truthy_str_supplied in E.
    + destruct (truthy_str _) eqn:E; [|done]. by apply truthy_str_supplied in E.
  - intros h s a o (? & [= <-] & Hs) Ho Hf. by eapply send_money_id_not_found.
  - intros i h a Hi (? & [= <-] & Hh) Hf. apply send_money_handle_not_found; [|done..].
    destruct (truthy_str _) eqn:E; [|done]. by apply truthy_str_supplied in E.
  - intros h s a (? & [= <-] & Hs) Ho. by apply send_money_invalid_id.
Qed.

(** C10.  An empty [toUserId] counts as no [toUserId]: the request behaves as
    the same request with [toUserId] absent.  With a supplied handle the
    handle is what is looked up (404 when it names nobody, the transfer to
    the named user otherwise); with the handle absent or empty the handler
    raises 400 "Receiver not specified"; and the outcome is never 400
    "Invalid toUserId". *)
Theorem C10_empty_id_is_no_id h a user now new_id db :
  let outcome := send_money (TransactionCreate.mk h (Some "") a) user now new_id db in
  outcome = send_money (TransactionCreate.mk h None a) user now new_id db
  ∧ (∀ s, h = Some s → s ≠ "" →
          List.find (field_is "handle" (VStr s)) (users db) = None →
          outcome = (Raise (HTTPException 404 "Receiver not found"), db))
  ∧ (∀ s r u ro, h = Some s → s ≠ "" →
          List.find (field_is "handle" (VStr s)) (users db) = Some r →
          user !! "_id" = Some (VOid u) → r !! "_id" = Some (VOid ro) →
          existsb (field_is "_id" (VOid new_id)) (ledger db) = false →
          snd outcome = <["transaction" := ledger db
                            ++ [stored_tx (oid_hex u) (oid_hex ro) a now new_id]]> db)
  ∧ (¬ supplied h → outcome = (Raise (HTTPException 400 "Receiver not specified"), db))
  ∧ fst outcome ≠ Raise (HTTPException 400 "Invalid toUserId").
Proof.
  intros outcome. split_and!.
  - reflexivity.
  - intros s -> Hs Hf. by apply send_money_handle_not_found.
  - intros s r u ro -> Hs Hf Hu Hr Hfresh. subst outcome.
    erewrite send_money_ok; [done| |done..].
    by apply resolves_by_handle.
  - intros Hh. apply send_money_not_specified; [done|]. simpl.
    destruct (truthy_str h) eqn:E; [|done]. by apply truthy_str_supplied in E.
  - apply send_money_never_invalid_without_id.
Qed.

(** ** Duplicates at signup *)

(** C8, as the code has it.  A handle that is taken is refused with 400
    "Handle already taken"; an email that is taken is refused with 400
    "Email already registered" when the handle is free; either way the
    request fails with status 400 and the database is left as it was. *)
Theorem C8_duplicate_signup SECRET_KEY pwd_context_hash payload now now_token salt new_id db :
  let outcome := signup SECRET_KEY pwd_context_hash payload now now_token salt new_id db in
  let handle_taken :=
    List.find (field_is "handle" (VStr (UserCreate.handle payload))) (users db) in
  let email_taken :=
    List.find (field_is "email" (VStr (lower (UserCreate.email payload)))) (users db) in
  (is_Some handle_taken →
   outcome = (Raise (HTTPException 400 "Handle already taken"), db))
  ∧ (is_Some email_taken → handle_taken = None →
     outcome = (Raise (HTTPException 400 "Email already registered"), db))
  ∧ (is_Some handle_taken ∨ is_Some email_taken →
     ∃ detail, outcome = (Raise (HTTPException 400 detail), db)).
Proof.
  intros outcome handle_taken email_taken.
  assert (H1 : is_Some handle_taken →
               outcome = (Raise (HTTPException 400 "Handle already taken"), db)).
  { intros [d Hd]. by eapply signup_handle_taken. }
  assert (H2 : is_Some email_taken → handle_taken = None →
               outcome = (Raise (HTTPException 400 "Email already registered"), db)).
  { intros [d Hd] Hh. by eapply signup_email_taken. }
  split_and!; [done..|].
  intros [Hh|He]; [eauto|].
  destruct handle_taken eqn:E; eauto.
Qed.

(** C8, counterexample.  Ann is registered; a second signup with her handle
    and her email is refused for the handle, not for the email. *)
Lemma C8_counterexample :
  let db := Fixture.db1 in
  let outcome := signup Fixture.secret Fixture.hash Fixture.ann 3000 3001 "s3" Fixture.bob_id db in
  existsb (field_is "email" (VStr (lower (UserCreate.email Fixture.ann)))) (users db) = true
  ∧ fst outcome = Raise (HTTPException 400 "Handle already taken")
  ∧ fst outcome ≠ Raise (HTTPException 400 "Email already registered").
Proof.
  split_and!.
  - vm_compute. reflexivity.
  - vm_compute. reflexivity.
  - vm_compute. discriminate.
Qed.

(** ** Request validation *)

Section Validation.
Variable SECRET_KEY : string.
Variable pwd_context_hash : string → string → string.
Variable EmailStr : string → bool.

End Validation.


(** ** History *)

#[local] Instance key_le_total : Total key_le.
Proof. intros [x|] [y|]; simpl; auto. lia. Qed.

#[local] Instance key_le_trans : Transitive key_le.
Proof. intros [x|] [y|] [z|]; simpl; try done. lia. Qed.

#[local] Instance desc_by_total k : Total (desc_by k).
Proof. intros d1 d2. unfold desc_by. destruct (total key_le (sort_key k d2) (sort_key k d1)); auto. Qed.

#[local] Instance desc_by_trans k : Transitive (desc_by k).
Proof. intros d1 d2 d3. unfold desc_by. intros H1 H2. by etrans. Qed.

Lemma Forall_filter_keep {A} (P Q : A → Prop) `{∀ x, Decision (Q x)} (l : list A) :
  Forall P l → Forall P (filter Q l).
Proof.
  rewrite !Forall_forall. intros HP x [_ Hx]%list_elem_of_filter. auto.
Qed.

Lemma or_is_involves u t : Is_true (or_is "fromUser" "toUser" (VStr u) t) ↔ involves u t.
Proof.
  unfold or_is, field_is, involves, sent_by, received_by.
  rewrite orb_True, !bool_decide_spec. done.
Qed.

Lemma filter_or_is_involves u (l : list (gmap string value)) :
  filter (λ t, Is_true (or_is "fromUser" "toUser" (VStr u) t)) l = filter (involves u) l.
Proof. apply list_filter_iff. intros t. apply or_is_involves. Qed.

Lemma tx_ok_id t : tx_ok t = true → ∃ o, t !! "_id" = Some (VOid o).
Proof.
  unfold tx_ok. destruct (t !! "_id") as [[]|]; try discriminate. eauto.
Qed.

Lemma tx_ok_amount t : tx_ok t = true → ∃ f, t !! "amount" = Some (VFloat f) ∧ gt0 f = true.
Proof.
  unfold tx_ok. destruct (t !! "_id") as [[]|]; try discriminate.
  destruct (t !! "amount") as [[]|]; try discriminate. eauto.
Qed.

Lemma rekey_public t : tx_ok t = true → rekey t = Ok (public t).
Proof.
  intros (o & Ho)%tx_ok_id. unfold rekey, public, getitem. by rewrite Ho.
Qed.

Lemma for_each_rekey l : Forall (λ t, tx_ok t = true) l → for_each rekey l = Ok (public <$> l).
Proof.
  induction 1 as [|t l Ht _ IH]; simpl; [done|].
  by rewrite rekey_public, IH.
Qed.

Lemma public_fields_of t :
  tx_ok t = true →
  public t !! "_id" = None
  ∧ (∃ o, t !! "_id" = Some (VOid o) ∧ public t !! "id" = Some (VStr (oid_hex o)))
  ∧ ∀ k, k ≠ "_id" → k ≠ "id" → public t !! k = t !! k.
Proof.
  intros (o & Ho)%tx_ok_id. unfold public. rewrite Ho. split_and!.
  - rewrite lookup_insert_ne by done. apply lookup_delete_eq.
  - exists o. split; [done|]. apply lookup_insert_eq.
  - intros k H1 H2. rewrite lookup_insert_ne by done. by rewrite lookup_delete_ne.
Qed.

Lemma ledger_ok_Forall db : ledger_ok db ↔ Forall (λ t, tx_ok t = true) (ledger db).
Proof.
  unfold ledger_ok. rewrite Forall_forall. rewrite forallb_forall.
  split; intros H t Ht; apply H; by apply list_elem_of_In.
Qed.

Lemma get_history_own user o db :
  user !! "_id" = Some (VOid o) →
  ledger_ok db →
  get_history (oid_hex o) user db
  = (Ok (BList (of_doc <$> (public <$>
           merge_sort (desc_by "timestamp") (filter (involves (oid_hex o)) (ledger db))))),
     db).
Proof.
  intros Hu Hok%ledger_ok_Forall.
  unfold get_history, bind, lift, getitem, find_or_sorted, ret. rewrite Hu. simpl.
  rewrite String.eqb_refl. simpl.
  rewrite filter_or_is_involves.
  rewrite for_each_rekey; [done|].
  rewrite merge_sort_Permutation. by apply Forall_filter_keep.
Qed.

Lemma get_history_other user o userId db :
  user !! "_id" = Some (VOid o) →
  userId ≠ oid_hex o →
  get_history userId user db = (Raise (HTTPException 403 "Forbidden"), db).
Proof.
  intros Hu Hne. unfold get_history, bind, lift, getitem, raise. rewrite Hu. simpl.
  destruct (String.eqb (oid_hex o) userId) eqn:E; [|done].
  apply String.eqb_eq in E. congruence.
Qed.

(** C7.  For the user whose identifier is [o], [get_history] returns the
    public forms of exactly the ledger records that name the user as sender
    or as receiver, most recent first; a public form has no [_id], carries
    the printed identifier under [id], and is the record in every other
    field. *)
Theorem C7_history_contents user o db :
  user !! "_id" = Some (VOid o) →
  ledger_ok db →
  ∃ txs,
    get_history (oid_hex o) user db = (Ok (BList (of_doc <$> txs)), db)
    ∧ txs ≡ₚ public <$> filter (involves (oid_hex o)) (ledger db)
    ∧ StronglySorted (desc_by "timestamp") txs
    ∧ Forall (λ t, t !! "_id" = None ∧ ∃ s, t !! "id" = Some (VStr s)) txs
    ∧ (∀ t, t ∈ ledger db →
            public t !! "_id" = None
            ∧ (∃ i, t !! "_id" = Some (VOid i) ∧ public t !! "id" = Some (VStr (oid_hex i)))
            ∧ ∀ k, k ≠ "_id" → k ≠ "id" → public t !! k = t !! k).
Proof.
  intros Hu Hok.
  pose proof (proj1 (ledger_ok_Forall db) Hok) as Hall.
  eexists. split_and!.
  - by apply get_history_own.
  - by rewrite merge_sort_Permutation.
  - eapply StronglySorted_fmap; [|apply StronglySorted_merge_sort; apply _].
    intros t1 t2. unfold desc_by, sort_key.
    assert (Hts : ∀ t, public t !! "timestamp" = t !! "timestamp").
    { intros t. unfold public. destruct (t !! "_id") as [[]|]; try done.
      rewrite lookup_insert_ne by done. by rewrite lookup_delete_ne. }
    by rewrite !Hts.
  - apply Forall_fmap. rewrite merge_sort_Permutation.
    apply Forall_filter_keep. eapply Forall_impl; [exact Hall|].
    intros t Ht; simpl. apply public_fields_of in Ht as (? & (i & _ & ?) & _). eauto.
  - intros t Ht. apply public_fields_of.
    rewrite Forall_forall in Hall. by apply Hall.
Qed.

(** ** What the auth and profile routes disclose *)

Lemma view_of_dom id name handle profileImg qrCodeUrl dateCreated :
  dom (view_of id name handle profileImg qrCodeUrl dateCreated) = public_fields.
Proof. reflexivity. Qed.

Lemma user_view_shape id d view :
  user_view id d = Ok view →
  ∃ n h p q c, view = view_of (VStr id) n h p q c.
Proof.
  unfold user_view.
  destruct (getitem d "name"), (getitem d "handle"), (getitem d "dateCreated");
    try discriminate.
  intros [= <-]. by eexists _, _, _, _, _.
Qed.

Lemma auth_body_hides tok i n h p q c :
  hides_password (BDict {[ "token" := BJwt tok; "user" := BDict (view_of i n h p q c) ]}).
Proof. unfold hides_password. vm_compute. discriminate. Qed.

Lemma view_hides i n h p q c : hides_password (BDict (view_of i n h p q c)).
Proof. unfold hides_password. vm_compute. discriminate. Qed.

Lemma detail_hides d : hides_password (BDict {[ "detail" := d ]}) ↔ hides_password d.
Proof.
  unfold hides_password. simpl. rewrite map_fold_singleton.
  set_solver.
Qed.

Lemma respond_raise_hides e b :
  content (respond (Raise e)) = Some b → hides_password b.
Proof.
  destruct e; simpl; try discriminate. intros [= <-].
  apply detail_hides. unfold hides_password. simpl. set_solver.
Qed.

Lemma unprocessable_hides errs b :
  content (unprocessable errs) = Some b → hides_password b.
Proof.
  intros [= <-]. apply detail_hides. unfold hides_password. simpl.
  induction errs; simpl; set_solver.
Qed.

Section Disclosure.
Variable SECRET_KEY : string.
Variable pwd_context_hash : string → string → string.
Variable pwd_context_verify : string → string → bool.
Variable EmailStr : string → bool.

Lemma signup_shape payload now now_token salt new_id db b db' :
  signup SECRET_KEY pwd_context_hash payload now now_token salt new_id db = (Ok b, db') →
  ∃ tok i n h p q c,
    b = BDict {[ "token" := BJwt tok; "user" := BDict (view_of i n h p q c) ]}.
Proof.
  unfold signup, bind, raise, ret, find_one, lift.
  destruct (negb _); [discriminate|].
  destruct (negb _); [discriminate|].
  destruct (insert_one _ _ _ _) as [[[d v]|e] db1]; [|discriminate].
  destruct (str v) as [id|e]; [|discriminate].
  destruct (user_view id d) as [view|e] eqn:E; [|discriminate].
  apply user_view_shape in E as (n & h & p & q & c & ->).
  intros [= <- <-]. by eexists _, _, _, _, _, _, _.
Qed.

Lemma login_shape payload now_token db b db' :
  login SECRET_KEY pwd_context_verify payload now_token db = (Ok b, db') →
  ∃ tok i n h p q c,
    b = BDict {[ "token" := BJwt tok; "user" := BDict (view_of i n h p q c) ]}.
Proof.
  unfold login, bind, raise, ret, find_one, lift.
  destruct (List.find _ _) as [d|]; [|discriminate].
  destruct (falsy _); [discriminate|].
  destruct (verify _ _ _) as [[]|e]; simpl; try discriminate.
  destruct (getitem d "_id") as [v|e]; [|discriminate].
  destruct (str v) as [id|e]; [|discriminate].
  destruct (user_view id d) as [view|e] eqn:E; [|discriminate].
  apply user_view_shape in E as (n & h & p & q & c & ->).
  intros [= <- <-]. by eexists _, _, _, _, _, _, _.
Qed.

Lemma get_profile_shape handle db b db' :
  get_profile handle db = (Ok b, db') →
  ∃ i n h p q c, b = BDict (view_of i n h p q c).
Proof.
  unfold get_profile, bind, raise, ret, find_one, lift.
  destruct (List.find _ _) as [d|]; [|discriminate].
  destruct (falsy _); [discriminate|].
  destruct (getitem d "_id") as [v|e]; [|discriminate].
  destruct (str v) as [id|e]; [|discriminate].
  destruct (user_view id d) as [view|e] eqn:E; [|discriminate].
  apply user_view_shape in E as (n & h & p & q & c & ->).
  intros [= <- <-]. by eexists _, _, _, _, _, _.
Qed.

Lemma run_hides (m : M body) db b :
  (∀ b' db', m db = (Ok b', db') → hides_password b') →
  content (fst (run m db)) = Some b → hides_password b.
Proof.
  unfold run. destruct (m db) as [[b'|e] db'] eqn:E; simpl.
  - intros H. destruct (jsonable b'); simpl; [|discriminate].
    intros [= <-]. by eapply H.
  - intros _. apply respond_raise_hides.
Qed.

(** C4.  Whenever [signup], [login] or [get_profile] returns, the user view
    it returns has exactly the fields id, name, handle, profileImg, qrCodeUrl
    and dateCreated; and no body that the three routes send, whether a
    result, an error or a validation report, has the key [password_hash]
    anywhere in it. *)
Theorem C4_public_view_only :
  (∀ payload now now_token salt new_id db b db',
     signup SECRET_KEY pwd_context_hash payload now now_token salt new_id db = (Ok b, db') →
     ∃ tok view, b = BDict {[ "token" := BJwt tok; "user" := BDict view ]}
                 ∧ dom view = public_fields)
  ∧ (∀ payload now_token db b db',
       login SECRET_KEY pwd_context_verify payload now_token db = (Ok b, db') →
       ∃ tok view, b = BDict {[ "token" := BJwt tok; "user" := BDict view ]}
                   ∧ dom view = public_fields)
  ∧ (∀ handle db b db',
       get_profile handle db = (Ok b, db') →
       ∃ view, b = BDict view ∧ dom view = public_fields)
  ∧ (∀ payload now now_token salt new_id db b,
       content (fst (post_auth_signup SECRET_KEY pwd_context_hash EmailStr
                       payload now now_token salt new_id db)) = Some b →
       hides_password b)
  ∧ (∀ payload now_token db b,
       content (fst (post_auth_login SECRET_KEY pwd_context_verify EmailStr
                       payload now_token db)) = Some b →
       hides_password b)
  ∧ (∀ handle db b,
       content (fst (get_profile_route handle db)) = Some b → hides_password b).
Proof.
  split_and!.
  - intros ???????? (tok & i & n & h & p & q & c & ->)%signup_shape.
    eexists _, _. split; [done|]. apply view_of_dom.
  - intros ????? (tok & i & n & h & p & q & c & ->)%login_shape.
    eexists _, _. split; [done|]. apply view_of_dom.
  - intros ???? (i & n & h & p & q & c & ->)%get_profile_shape.
    eexists. split; [done|]. apply view_of_dom.
  - intros payload now now_token salt new_id db b. unfold post_auth_signup.
    destruct (UserCreate_errors _ _) eqn:E.
    + apply run_hides.
      intros b' db' (tok & i & n & h & p & q & c & ->)%signup_shape.
      apply auth_body_hides.
    + apply unprocessable_hides.
  - intros payload now_token db b. unfold post_auth_login.
    destruct (UserLogin_errors _ _) eqn:E.
    + apply run_hides.
      intros b' db' (tok & i & n & h & p & q & c & ->)%login_shape.
      apply auth_body_hides.
    + apply unprocessable_hides.
  - intros handle db b. unfold get_profile_route. apply run_hides.
    intros b' db' (i & n & h & p & q & c & ->)%get_profile_shape.
    apply view_hides.
Qed.
End Disclosure.

(** ** Whose history *)


(** ** binary64 sums of positive amounts *)

Lemma float_of_Z_0 : float_of_Z 0 = float_zero.
Proof. reflexivity. Qed.

Lemma gt0_positive a : gt0 a = true → nonneg a ∧ a ≠ S754_zero false ∧ a ≠ S754_nan.
Proof.
  unfold gt0, SFltb, float_zero. destruct a as [s|s| |s m e]; simpl; try discriminate.
  - destruct s; [discriminate|]. done.
  - destruct s; [discriminate|]. done.
Qed.

Lemma float_add_zero_r x : nonneg x → float_add x float_zero = x.
Proof. destruct x as [[]|[]| |[] m e]; simpl; done. Qed.

Lemma float_add_zero_l a : gt0 a = true → float_add float_zero a = a.
Proof.
  intros (Hs & Hz & Hn)%gt0_positive.
  destruct a as [[]|[]| |[] m e]; simpl in *; done.
Qed.

Lemma binary_round_aux_nonneg mx ex lx : nonneg (binary_round_aux prec emax false mx ex lx).
Proof.
  unfold binary_round_aux.
  destruct (shr_fexp _ _ _ _ _) as [mrs' e'].
  destruct (shr_fexp _ _ _ _ _) as [mrs'' e''].
  destruct (shr_m mrs''); simpl; [done| |done].
  by destruct (_ <=? _).
Qed.

Lemma float_add_nonneg x a : nonneg x → gt0 a = true → nonneg (float_add x a).
Proof.
  intros Hx (Ha & Hz & Hn)%gt0_positive.
  destruct x as [sx|sx| |sx mx ex], a as [sa|sa| |sa ma ea];
    simpl in *; subst; try done.
  unfold float_add, SFadd. simpl.
  unfold binary_round.
  destruct (shl_align _ _ _). apply binary_round_aux_nonneg.
Qed.

(** ** Aggregates *)

Lemma get_is_str (d : gmap string value) k u : get d k = VStr u ↔ d !! k = Some (VStr u).
Proof.
  unfold get. destruct (d !! k) as [v|]; simpl; split; try congruence; done.
Qed.

Lemma sum_amounts_rel k u (l : list (gmap string value)) :
  Forall (λ t, tx_ok t = true) l →
  ∀ acc s, acc_rel acc s →
    acc_rel
      (fold_left (λ acc d, bson_add acc
                   (cond_eq k (VStr u) (λ d, get d "amount") (λ _, VInt 0) d)) l acc)
      (fold_left float_add (amount_of <$> filter (λ d, d !! k = Some (VStr u)) l) s).
Proof.
  induction 1 as [|t l Ht _ IH]; intros acc s Hacc; [done|].
  apply tx_ok_amount in Ht as (a & Ha & Hpos).
  rewrite filter_cons. simpl. unfold cond_eq at 2.
  destruct (decide (t !! k = Some (VStr u))) as [Hk|Hk].
  - rewrite bool_decide_eq_true_2 by by apply get_is_str.
    simpl. apply IH.
    unfold get, amount_of. rewrite Ha. simpl.
    destruct Hacc as [[-> ->]|[-> Hs]]; right.
    + change (bson_add (VInt 0) (VFloat a)) with (VFloat (float_add float_zero a)).
      split; [done|].
      rewrite float_add_zero_l by done. by apply gt0_positive.
    + split; [done|]. by apply float_add_nonneg.
  - rewrite bool_decide_eq_false_2 by (by rewrite get_is_str).
    apply IH.
    destruct Hacc as [[-> ->]|[-> Hs]]; [by left|right].
    change (bson_add (VFloat s) (VInt 0)) with (VFloat (float_add s float_zero)).
    by rewrite float_add_zero_r.
Qed.

Lemma py_float_sum k u (l : list (gmap string value)) :
  Forall (λ t, tx_ok t = true) l →
  py_float (sum_of (cond_eq k (VStr u) (λ d, get d "amount") (λ _, VInt 0)) l)
  = Ok (VFloat (float_sum (amount_of <$> filter (λ d, d !! k = Some (VStr u)) l))).
Proof.
  intros Hl. unfold sum_of, float_sum.
  destruct (sum_amounts_rel k u l Hl (VInt 0) float_zero) as [[H1 H2]|[H1 _]];
    [by left|rewrite H1..].
  - by rewrite H2.
  - done.
Qed.

Lemma sum_count k u (l : list (gmap string value)) n :
  fold_left (λ acc d, bson_add acc (cond_eq k (VStr u) (λ _, VInt 1) (λ _, VInt 0) d)) l (VInt n)
  = VInt (n + Z.of_nat (length (filter (λ d, d !! k = Some (VStr u)) l))).
Proof.
  revert n. induction l as [|t l IH]; intros n; simpl.
  - f_equal. lia.
  - rewrite filter_cons. unfold cond_eq at 2.
    destruct (decide (t !! k = Some (VStr u))) as [Hk|Hk].
    + rewrite bool_decide_eq_true_2 by by apply get_is_str.
      simpl bson_add. rewrite IH. f_equal. simpl length. lia.
    + rewrite bool_decide_eq_false_2 by (by rewrite get_is_str).
      simpl bson_add. rewrite IH. f_equal. lia.
Qed.

Lemma py_int_count k u (l : list (gmap string value)) :
  py_int (sum_of (cond_eq k (VStr u) (λ _, VInt 1) (λ _, VInt 0)) l)
  = Ok (VInt (Z.of_nat (length (filter (λ d, d !! k = Some (VStr u)) l)))).
Proof. unfold sum_of. by rewrite sum_count. Qed.

Lemma filter_sent_involves u (l : list (gmap string value)) :
  filter (sent_by u) (filter (involves u) l) = filter (sent_by u) l.
Proof.
  rewrite list_filter_filter. apply list_filter_iff.
  intros t. unfold involves. tauto.
Qed.

Lemma filter_received_involves u (l : list (gmap string value)) :
  filter (received_by u) (filter (involves u) l) = filter (received_by u) l.
Proof.
  rewrite list_filter_filter. apply list_filter_iff.
  intros t. unfold involves. tauto.
Qed.


(** ** What a send leaves behind *)

Lemma ledger_insert l (db : Database) : ledger (<["transaction" := l]> db) = l.
Proof. unfold ledger. rewrite coll_insert. by destruct (decide _). Qed.

Lemma ledger_insert_users l (db : Database) : ledger (<["user" := l]> db) = ledger db.
Proof. unfold ledger. rewrite coll_insert. by destruct (decide _). Qed.

Lemma stored_tx_ok fromUser toUser a now new_id :
  tx_ok (stored_tx fromUser toUser a now new_id) = gt0 a.
Proof. reflexivity. Qed.

Lemma ledger_ok_app db t :
  ledger_ok db → tx_ok t = true →
  ledger_ok (<["transaction" := ledger db ++ [t]]> db).
Proof.
  unfold ledger_ok. rewrite ledger_insert, forallb_app. simpl.
  intros -> ->. done.
Qed.

Lemma send_money_db payload user now new_id db :
  snd (send_money payload user now new_id db) = db
  ∨ ∃ fromUser toUser,
      snd (send_money payload user now new_id db)
      = <["transaction" := ledger db
            ++ [stored_tx fromUser toUser (TransactionCreate.amount payload) now new_id]]> db.
Proof.
  unfold send_money, bind, raise, ret, try_except, find_one, lift, getitem, str, ledger.
  set (resolve := if truthy_str _ then _ else _).
  assert (Hres : snd (resolve db) = db).
  { subst resolve. destruct (truthy_str _); simpl.
    - destruct (ObjectId_of_str _); simpl; done.
    - destruct (truthy_str _); done. }
  destruct (resolve db) as [[[to_doc|]|e] db1]; simpl in Hres; subst db1; simpl; auto.
  destruct (bool_decide _); simpl; auto.
  destruct (user !! "_id") as [[]|]; simpl; auto;
    destruct (to_doc !! "_id") as [[]|]; simpl; auto;
    (destruct (existsb (field_is "_id" (VOid new_id)) (coll db "transaction")) eqn:E;
     [rewrite insert_one_duplicate by done; simpl; auto
     |rewrite insert_one_fresh by done; simpl; right; by eexists _, _]).
Qed.

Lemma signup_ledger SECRET_KEY pwd_context_hash payload now now_token salt new_id db :
  ledger (snd (signup SECRET_KEY pwd_context_hash payload now now_token salt new_id db))
  = ledger db.
Proof.
  unfold signup, bind, raise, ret, find_one, lift.
  destruct (negb _); [done|].
  destruct (negb _); [done|]. simpl.
  destruct (existsb (field_is "_id" (VOid new_id)) (coll db "user")) eqn:E.
  - by rewrite insert_one_duplicate.
  - rewrite insert_one_fresh by done. simpl.
    destruct (user_view _ _); simpl; apply ledger_insert_users.
Qed.

Lemma run_snd (m : M body) db : snd (run m db) = snd (m db).
Proof. unfold run. by destruct (m db). Qed.

Lemma reachable_ledger_ok SECRET_KEY pwd_context_hash EmailStr db :
  reachable SECRET_KEY pwd_context_hash EmailStr db → ledger_ok db.
Proof.
  induction 1 as [|db payload now now_token salt new_id _ IH
                 |db credentials payload now now_tx new_id _ IH].
  - reflexivity.
  - unfold post_auth_signup. destruct (UserCreate_errors _ _); [|done].
    rewrite run_snd. unfold ledger_ok. by rewrite signup_ledger.
  - unfold post_transaction_send, authenticated.
    destruct (get_current_user _ _ _ _) as [[user|e] db'] eqn:Hauth; [|].
    + apply get_current_user_Ok in Hauth as (-> & _).
      unfold TransactionCreate_errors.
      destruct (gt0 _) eqn:Hpos; [|done].
      rewrite run_snd.
      destruct (send_money_db payload user now_tx new_id db) as [->|(f & t & ->)]; [done|].
      apply ledger_ok_app; [done|]. by rewrite stored_tx_ok.
    + simpl. revert Hauth.
      unfold get_current_user, try_except, bind, lift, raise, ret, find_one.
      destruct (jwt_decode _ _ _) as [claims|[]]; simpl; try by intros [= _ <-].
      destruct (claims !! "sub") as [[]|]; simpl; try by intros [= _ <-].
      destruct (ObjectId_of_str _); simpl; try by intros [= _ <-].
      destruct (List.find _ _); simpl; try by intros [= _ <-].
      destruct (bool_decide _); simpl; by intros [= _ <-].
Qed.

Lemma stored_tx_involves_sender fromUser toUser a now new_id :
  involves fromUser (stored_tx fromUser toUser a now new_id).
Proof. left. reflexivity. Qed.

Lemma stored_tx_involves_receiver fromUser toUser a now new_id :
  involves toUser (stored_tx fromUser toUser a now new_id).
Proof. right. reflexivity. Qed.

Lemma get_history_includes user o db t :
  user !! "_id" = Some (VOid o) →
  ledger_ok db →
  t ∈ ledger db → involves (oid_hex o) t →
  ∃ txs, get_history (oid_hex o) user db = (Ok (BList (of_doc <$> txs)), db)
         ∧ public t ∈ txs.
Proof.
  intros Hu Hok Ht Hinv. eexists. split; [by apply get_history_own|].
  apply list_elem_of_fmap. exists t. split; [done|].
  rewrite merge_sort_Permutation. by apply list_elem_of_filter.
Qed.

(** C2.  An authenticated send with a positive amount whose receiver
    reference resolves appends exactly one record, sender, receiver, amount
    and time as given, and that record is in the history of the sender and
    of the receiver from then on.  The dict [send_money] returns says
    [status = sent], but its [transaction] still holds the raw ObjectId under
    [_id], which [insert_one] wrote into [tx_doc]; the response encoder has
    nothing for it and the route answers a bare 500. *)
Theorem C2_send_records_but_answers_500
  SECRET_KEY credentials payload now now_tx new_id db user r u ro :
  get_current_user SECRET_KEY credentials now db = (Ok user, db) →
  gt0 (TransactionCreate.amount payload) = true →
  resolves db payload r →
  user !! "_id" = Some (VOid u) →
  r !! "_id" = Some (VOid ro) →
  existsb (field_is "_id" (VOid new_id)) (ledger db) = false →
  ledger_ok db →
  let tx := stored_tx (oid_hex u) (oid_hex ro) (TransactionCreate.amount payload)
              now_tx new_id in
  let returned := tx ∪ {[ "id" := VStr (oid_hex new_id) ]} in
  let db' := <["transaction" := ledger db ++ [tx]]> db in
  send_money payload user now_tx new_id db
  = (Ok (BDict {[ "status" := BVal (VStr "sent"); "transaction" := of_doc returned ]}), db')
  ∧ ledger db' = ledger db ++ [tx]
  ∧ amount_of tx = TransactionCreate.amount payload
  ∧ (∃ txs, get_history (oid_hex u) user db' = (Ok (BList (of_doc <$> txs)), db')
            ∧ public tx ∈ txs)
  ∧ (∃ txs, get_history (oid_hex ro) r db' = (Ok (BList (of_doc <$> txs)), db')
            ∧ public tx ∈ txs)
  ∧ returned !! "_id" = Some (VOid new_id)
  ∧ post_transaction_send SECRET_KEY credentials payload now now_tx new_id db
    = (mkResponse 500 None, db').
Proof.
  intros Hauth Hpos Hres Hu Hr Hfresh Hok tx returned db'.
  pose proof (send_money_ok payload user now_tx new_id db r u ro Hres Hu Hr Hfresh) as Hsend.
  assert (Hl : ledger db' = ledger db ++ [tx]) by apply ledger_insert.
  assert (Hok' : ledger_ok db').
  { apply ledger_ok_app; [done|]. subst tx. by rewrite stored_tx_ok. }
  assert (Hin : tx ∈ ledger db').
  { rewrite Hl. apply elem_of_app. right. by apply list_elem_of_singleton. }
  split_and!.
  - exact Hsend.
  - exact Hl.
  - reflexivity.
  - apply get_history_includes; [done..|]. apply stored_tx_involves_sender.
  - apply get_history_includes; [done..|]. apply stored_tx_involves_receiver.
  - reflexivity.
  - unfold post_transaction_send, authenticated, TransactionCreate_errors, run.
    rewrite Hauth, Hpos, Hsend. simpl fst. unfold respond.
    by rewrite send_money_body_raw_id.
Qed.

(** ** The statements on the small deployment *)



Lemma C2_witness :
  post_transaction_send Fixture.secret Fixture.ann_token Fixture.to_bob 5000 5001
    Fixture.tx1_id Fixture.db2
  = (mkResponse 500 None,
     <["transaction" := ledger Fixture.db2
         ++ [stored_tx (oid_hex Fixture.ann_id) (oid_hex Fixture.bob_id) Fixture.one 5001
               Fixture.tx1_id]]> Fixture.db2).
Proof.
  apply (C2_send_records_but_answers_500 Fixture.secret Fixture.ann_token Fixture.to_bob
           5000 5001 Fixture.tx1_id Fixture.db2 Fixture.ann_doc Fixture.bob_doc
           Fixture.ann_id Fixture.bob_id).
  - reflexivity.
  - reflexivity.
  - apply resolves_by_handle; [reflexivity|discriminate|reflexivity].
  - reflexivity.
  - reflexivity.
  - reflexivity.
  - reflexivity.
Defined.


Lemma C4_witness :
  let view := view_of (VStr (oid_hex Fixture.bob_id)) (VStr "Bob") (VStr "bob_2")
                (VStr "http://img") VNone (VDatetime 2000) in
  get_profile "bob_2" Fixture.db2 = (Ok (BDict view), Fixture.db2)
  ∧ dom view = public_fields
  ∧ hides_password (BDict view).
Proof.
  intros view.
  assert (E : get_profile "bob_2" Fixture.db2 = (Ok (BDict view), Fixture.db2))
    by reflexivity.
  destruct (C4_public_view_only Fixture.secret Fixture.hash Fixture.check Fixture.any_email)
    as (_ & _ & Hprofile & _ & _ & Hroute).
  destruct (Hprofile "bob_2" Fixture.db2 (BDict view) Fixture.db2 E) as (v & Hv & Hdom).
  injection Hv as <-.
  split_and!; [exact E|exact Hdom|].
  apply (Hroute "bob_2" Fixture.db2). reflexivity.
Defined.


Lemma C6_witness :
  send_money (TransactionCreate.mk (Some "nobody") (Some (oid_hex Fixture.bob_id)) Fixture.one)
    Fixture.ann_doc 5001 Fixture.tx1_id Fixture.db2
  = send_money (TransactionCreate.mk None (Some (oid_hex Fixture.bob_id)) Fixture.one)
      Fixture.ann_doc 5001 Fixture.tx1_id Fixture.db2
  ∧ send_money (TransactionCreate.mk None None Fixture.one)
      Fixture.ann_doc 5001 Fixture.tx1_id Fixture.db2
    = (Raise (HTTPException 400 "Receiver not specified"), Fixture.db2)
  ∧ send_money (TransactionCreate.mk (Some "nobody") None Fixture.one)
      Fixture.ann_doc 5001 Fixture.tx1_id Fixture.db2
    = (Raise (HTTPException 404 "Receiver not found"), Fixture.db2)
  ∧ send_money (TransactionCreate.mk None (Some "xyz") Fixture.one)
      Fixture.ann_doc 5001 Fixture.tx1_id Fixture.db2
    = (Raise (HTTPException 400 "Invalid toUserId"), Fixture.db2).
Proof.
  destruct (C6_receiver_resolution Fixture.ann_doc 5001 Fixture.tx1_id Fixture.db2)
    as (Hboth & Hneither & _ & Hhandle & Hinvalid).
  assert (Hno : ¬ supplied None) by (intros (s & [=] & _)).
  split_and!.
  - apply (Hboth (TransactionCreate.mk (Some "nobody") (Some (oid_hex Fixture.bob_id))
                    Fixture.one)); simpl; eexists; split; try reflexivity; discriminate.
  - by apply Hneither.
  - apply Hhandle; [done| |reflexivity]. eexists; split; [reflexivity|discriminate].
  - apply Hinvalid; [|reflexivity]. eexists; split; [reflexivity|discriminate].
Defined.

Lemma C7_witness :
  ∃ txs,
    get_history (oid_hex Fixture.ann_id) Fixture.ann_doc Fixture.db4
    = (Ok (BList (of_doc <$> txs)), Fixture.db4)
    ∧ txs ≡ₚ public <$> filter (involves (oid_hex Fixture.ann_id)) (ledger Fixture.db4)
    ∧ StronglySorted (desc_by "timestamp") txs.
Proof.
  destruct (C7_history_contents Fixture.ann_doc Fixture.ann_id Fixture.db4)
    as (txs & H1 & H2 & H3 & _); [reflexivity..|].
  exists txs. split_and!; assumption.
Defined.

Lemma C8_witness :
  signup Fixture.secret Fixture.hash
    (UserCreate.mk "Al" "al_9" "A@X.com" "pw" None) 3000 3001 "s3" Fixture.bob_id Fixture.db1
  = (Raise (HTTPException 400 "Email already registered"), Fixture.db1).
Proof.
  destruct (C8_duplicate_signup Fixture.secret Fixture.hash
              (UserCreate.mk "Al" "al_9" "A@X.com" "pw" None) 3000 3001 "s3"
              Fixture.bob_id Fixture.db1)
    as (_ & Hemail & _).
  apply Hemail; [|reflexivity].
  exists Fixture.db1_ann. reflexivity.
Defined.


Lemma C10_witness :
  send_money (TransactionCreate.mk (Some "bob_2") (Some "") Fixture.one)
    Fixture.ann_doc 5001 Fixture.tx1_id Fixture.db2
  = send_money (TransactionCreate.mk (Some "bob_2") None Fixture.one)
      Fixture.ann_doc 5001 Fixture.tx1_id Fixture.db2
  ∧ send_money (TransactionCreate.mk (Some "") (Some "") Fixture.one)
      Fixture.ann_doc 5001 Fixture.tx1_id Fixture.db2
    = (Raise (HTTPException 400 "Receiver not specified"), Fixture.db2)
  ∧ send_money (TransactionCreate.mk (Some "nobody") (Some "") Fixture.one)
      Fixture.ann_doc 5001 Fixture.tx1_id Fixture.db2
    = (Raise (HTTPException 404 "Receiver not found"), Fixture.db2).
Proof.
  split_and!.
  - apply (C10_empty_id_is_no_id (Some "bob_2") Fixture.one Fixture.ann_doc 5001
             Fixture.tx1_id Fixture.db2).
  - apply (C10_empty_id_is_no_id (Some "") Fixture.one Fixture.ann_doc 5001
             Fixture.tx1_id Fixture.db2).
    intros (s & [= <-] & Hs). done.
  - eapply (C10_empty_id_is_no_id (Some "nobody") Fixture.one Fixture.ann_doc 5001
              Fixture.tx1_id Fixture.db2); [reflexivity|discriminate|reflexivity].
Defined.

(** * Further properties *)

(** ** Strings *)

Lemma ascii_lower_idem c : ascii_lower (ascii_lower c) = ascii_lower c.
Proof. destruct c as [[] [] [] [] [] [] [] []]; reflexivity. Qed.

Lemma lower_idem s : lower (lower s) = lower s.
Proof. induction s as [|c s IH]; simpl; [done|]. by rewrite ascii_lower_idem, IH. Qed.

Lemma lower_nonempty s : s ≠ "" ↔ lower s ≠ "".
Proof. by destruct s. Qed.

Lemma handle_char_lower c : handle_char c = true → ascii_lower c = c.
Proof. destruct c as [[] [] [] [] [] [] [] []]; simpl; intros H; try reflexivity; discriminate. Qed.

Lemma handle_pattern_lower h : handle_pattern h = true → lower h = h.
Proof.
  unfold handle_pattern. rewrite !andb_true_iff. intros [_ H].
  induction h as [|c h IH]; simpl in *; [done|].
  apply andb_true_iff in H as [Hc Hh]. by rewrite handle_char_lower, IH.
Qed.

(** ** Lookups against the values of a field *)

Lemma find_None_field_values k v (l : list (gmap string value)) :
  List.find (field_is k v) l = None ↔ Some v ∉ field_values k l.
Proof.
  unfold field_values. induction l as [|d l IH]; simpl.
  - split; [intros _; apply not_elem_of_nil|done].
  - rewrite ?fmap_cons, not_elem_of_cons. unfold field_is at 1.
    destruct (decide (d !! k = Some v)) as [E|E].
    + rewrite bool_decide_eq_true_2 by done. split; [done|]. intros [H _]. congruence.
    + rewrite bool_decide_eq_false_2 by done. rewrite IH. split; [|tauto].
      intros H. split; [congruence|done].
Qed.

Lemma existsb_false_field_values k v (l : list (gmap string value)) :
  existsb (field_is k v) l = false ↔ Some v ∉ field_values k l.
Proof.
  rewrite <- find_None_field_values.
  induction l as [|d l IH]; simpl; [done|].
  destruct (field_is k v d); simpl; [done|]. exact IH.
Qed.

Lemma find_Some_unique k v (l : list (gmap string value)) d :
  NoDup (field_values k l) → d ∈ l → d !! k = Some v →
  List.find (field_is k v) l = Some d.
Proof.
  unfold field_values. induction l as [|x l IH]; simpl; [by intros _ ?%elem_of_nil|].
  rewrite ?fmap_cons, NoDup_cons. intros [Hx Hl] Hd Hk.
  apply elem_of_cons in Hd as [->|Hd].
  - unfold field_is. by rewrite bool_decide_eq_true_2.
  - unfold field_is at 1. rewrite bool_decide_eq_false_2; [by apply IH|].
    intros Hxk. apply Hx. rewrite Hxk, <- Hk.
    apply list_elem_of_fmap. by exists d.
Qed.

(** ** Everything signup can do *)

Lemma signup_id_collision SECRET_KEY pwd_context_hash payload now now_token salt new_id db :
  List.find (field_is "handle" (VStr (UserCreate.handle payload))) (users db) = None →
  List.find (field_is "email" (VStr (lower (UserCreate.email payload)))) (users db) = None →
  existsb (field_is "_id" (VOid new_id)) (users db) = true →
  signup SECRET_KEY pwd_context_hash payload now now_token salt new_id db
  = (Raise DuplicateKeyError, db).
Proof.
  intros H1 H2 H3. unfold signup, bind, find_one, users in *.
  rewrite falsy_find, H1. simpl.
  rewrite falsy_find, H2. simpl.
  rewrite insert_one_duplicate; [done|reflexivity|done].
Qed.

Lemma signup_cases SECRET_KEY pwd_context_hash payload now now_token salt new_id db :
  let outcome := signup SECRET_KEY pwd_context_hash payload now now_token salt new_id db in
  let handle_taken :=
    List.find (field_is "handle" (VStr (UserCreate.handle payload))) (users db) in
  let email_taken :=
    List.find (field_is "email" (VStr (lower (UserCreate.email payload)))) (users db) in
  let id_taken := existsb (field_is "_id" (VOid new_id)) (users db) in
  (is_Some handle_taken
   ∧ outcome = (Raise (HTTPException 400 "Handle already taken"), db))
  ∨ (handle_taken = None ∧ is_Some email_taken
     ∧ outcome = (Raise (HTTPException 400 "Email already registered"), db))
  ∨ (handle_taken = None ∧ email_taken = None ∧ id_taken = true
     ∧ outcome = (Raise DuplicateKeyError, db))
  ∨ (handle_taken = None ∧ email_taken = None ∧ id_taken = false
     ∧ ∃ db',
         outcome
         = (Ok (BDict {[ "token" := BJwt (create_access_token SECRET_KEY
                                            {[ "sub" := VStr (oid_hex new_id) ]}
                                            None now_token);
                         "user" := BDict (signup_view payload now new_id) ]}), db')
         ∧ users db' = users db ++ [stored_user pwd_context_hash payload now salt new_id]
         ∧ ledger db' = ledger db).
Proof.
  intros outcome handle_taken email_taken id_taken.
  destruct handle_taken as [d|] eqn:Hh.
  { left. split; [by eexists|]. by eapply signup_handle_taken. }
  destruct email_taken as [d|] eqn:He.
  { right; left. split_and!; [done|by eexists|]. by eapply signup_email_taken. }
  destruct id_taken eqn:Hi.
  { right; right; left. split_and!; try done. by apply signup_id_collision. }
  right; right; right. split_and!; try done.
  eexists. split_and!.
  - subst outcome. by rewrite signup_ok.
  - unfold users. rewrite coll_insert. by destruct (decide _).
  - apply ledger_insert_users.
Qed.


(** ** Everything a send can do *)

Lemma send_money_cases payload user now new_id db :
  (∃ e, send_money payload user now new_id db = (Raise e, db))
  ∨ (∃ r from_id to_id fromUser toUser,
       resolves db payload r
       ∧ user !! "_id" = Some from_id ∧ str from_id = Ok fromUser
       ∧ r !! "_id" = Some to_id ∧ str to_id = Ok toUser
       ∧ existsb (field_is "_id" (VOid new_id)) (ledger db) = false
       ∧ let tx := stored_tx fromUser toUser (TransactionCreate.amount payload) now new_id in
         let db' := <["transaction" := ledger db ++ [tx]]> db in
         send_money payload user now new_id db
         = (Ok (BDict {[ "status" := BVal (VStr "sent");
                         "transaction" := of_doc (tx ∪ {[ "id" := VStr (oid_hex new_id) ]}) ]}),
            db')
         ∧ ledger db' = ledger db ++ [tx]
         ∧ users db' = users db).
Proof.
  destruct payload as [h i a].
  assert (Hres : (∃ e, send_money (TransactionCreate.mk h i a) user now new_id db
                       = (Raise e, db))
                 ∨ ∃ r, resolves db (TransactionCreate.mk h i a) r).
  { destruct (truthy_str i) eqn:Hi.
    - destruct i as [[|c s]|]; try discriminate.
      destruct (ObjectId_of_str (String c s)) as [o|] eqn:Ho.
      + destruct (List.find (field_is "_id" (VOid o)) (users db)) as [r|] eqn:Hf.
        * right. exists r. by eapply resolves_by_id.
        * left. eexists. by eapply send_money_id_not_found.
      + left. eexists. by apply send_money_invalid_id.
    - destruct (truthy_str h) eqn:Hh.
      + destruct h as [[|c s]|]; try discriminate.
        destruct (List.find (field_is "handle" (VStr (String c s))) (users db))
          as [r|] eqn:Hf.
        * right. exists r. by apply resolves_by_handle.
        * left. eexists. by apply send_money_handle_not_found.
      + left. eexists. by apply send_money_not_specified. }
  destruct Hres as [?|[r Hr]]; [by left|].
  assert (Hne : r ≠ ∅).
  { intros ->. inversion Hr as [????? _ _ Hf|???? _ _ Hf];
      apply find_field_is_Some in Hf as [_ Hf]; by rewrite lookup_empty in Hf. }
  assert (Hstep : send_money (TransactionCreate.mk h i a) user now new_id db
                  = (from_id <- lift (getitem user "_id") ;;
                     fromUser <- lift (str from_id) ;;
                     to_id <- lift (getitem r "_id") ;;
                     toUser <- lift (str to_id) ;;
                     res <- insert_one "transaction" new_id
                              {[ "fromUser" := VStr fromUser; "toUser" := VStr toUser;
                                 "amount" := VFloat a; "timestamp" := VDatetime now ]} ;;
                     let '(tx_doc, tx_id) := res in
                     id <- lift (str tx_id) ;;
                     ret (BDict {[ "status" := BVal (VStr "sent");
                                   "transaction" := of_doc (tx_doc ∪ {[ "id" := VStr id ]}) ]}))
                      db).
  { inversion Hr as [h' s a' o r' Hs Ho Hf|i' h' a' r' Hi Hh Hf]; subst;
      unfold send_money, bind, raise, try_except, find_one, users in *; simpl.
    - destruct s; [done|]. simpl. rewrite Ho, Hf. simpl.
      by rewrite bool_decide_eq_false_2.
    - rewrite Hi. destruct h'; [done|]. simpl. rewrite Hf. simpl.
      by rewrite bool_decide_eq_false_2. }
  rewrite Hstep. unfold bind, lift, getitem, ret.
  destruct (user !! "_id") as [from_id|] eqn:Hu; [|left; by eexists].
  destruct (str from_id) as [fromUser|e] eqn:Hfrom; [|left; by eexists].
  destruct (r !! "_id") as [to_id|] eqn:Hto; [|left; by eexists].
  destruct (str to_id) as [toUser|e] eqn:Htou; [|left; by eexists].
  destruct (existsb (field_is "_id" (VOid new_id)) (ledger db)) eqn:Hfresh.
  - left. rewrite insert_one_duplicate by done. by eexists.
  - right. exists r, from_id, to_id, fromUser, toUser.
    split_and!; try done.
    + unfold ledger in *. by rewrite insert_one_fresh.
    + apply ledger_insert.
    + unfold users. rewrite coll_insert. by destruct (decide _).
Qed.

(** X2.  [send_money] either raises and leaves the database as it was, or its
    receiver reference resolved to a stored user and it appended exactly one
    ledger record, from the printed [_id] of the caller to the printed [_id]
    of that user, with the amount and the time of the request, leaving the
    users alone. *)
Theorem send_money_outcomes payload user now new_id db :
  (∃ e, send_money payload user now new_id db = (Raise e, db))
  ∨ (∃ r from_id to_id fromUser toUser,
       resolves db payload r
       ∧ user !! "_id" = Some from_id ∧ str from_id = Ok fromUser
       ∧ r !! "_id" = Some to_id ∧ str to_id = Ok toUser
       ∧ existsb (field_is "_id" (VOid new_id)) (ledger db) = false
       ∧ let tx := stored_tx fromUser toUser (TransactionCreate.amount payload) now new_id in
         let db' := <["transaction" := ledger db ++ [tx]]> db in
         send_money payload user now new_id db
         = (Ok (BDict {[ "status" := BVal (VStr "sent");
                         "transaction" := of_doc (tx ∪ {[ "id" := VStr (oid_hex new_id) ]}) ]}),
            db')
         ∧ ledger db' = ledger db ++ [tx]
         ∧ users db' = users db).
Proof.
  destruct payload as [h i a].
  assert (Hres : (∃ e, send_money (TransactionCreate.mk h i a) user now new_id db
                       = (Raise e, db))
                 ∨ ∃ r, resolves db (TransactionCreate.mk h i a) r).
  { destruct (truthy_str i) eqn:Hi.
    - destruct i as [[|c s]|]; try discriminate.
      destruct (ObjectId_of_str (String c s)) as [o|] eqn:Ho.
      + destruct (List.find (field_is "_id" (VOid o)) (users db)) as [r|] eqn:Hf.
        * right. exists r. by eapply resolves_by_id.
        * left. eexists. by eapply send_money_id_not_found.
      + left. eexists. by apply send_money_invalid_id.
    - destruct (truthy_str h) eqn:Hh.
      + destruct h as [[|c s]|]; try discriminate.
        destruct (List.find (field_is "handle" (VStr (String c s))) (users db))
          as [r|] eqn:Hf.
        * right. exists r. by apply resolves_by_handle.
        * left. eexists. by apply send_money_handle_not_found.
      + left. eexists. by apply send_money_not_specified. }
  destruct Hres as [?|[r Hr]]; [by left|].
  assert (Hne : r ≠ ∅).
  { intros ->. inversion Hr as [????? _ _ Hf|???? _ _ Hf];
      apply find_field_is_Some in Hf as [_ Hf]; by rewrite lookup_empty in Hf. }
  assert (Hstep : send_money (TransactionCreate.mk h i a) user now new_id db
                  = (from_id <- lift (getitem user "_id") ;;
                     fromUser <- lift (str from_id) ;;
                     to_id <- lift (getitem r "_id") ;;
                     toUser <- lift (str to_id) ;;
                     res <- insert_one "transaction" new_id
                              {[ "fromUser" := VStr fromUser; "toUser" := VStr toUser;
                                 "amount" := VFloat a; "timestamp" := VDatetime now ]} ;;
                     let '(tx_doc, tx_id) := res in
                     id <- lift (str tx_id) ;;
                     ret (BDict {[ "status" := BVal (VStr "sent");
                                   "transaction" := of_doc (tx_doc ∪ {[ "id" := VStr id ]}) ]}))
                      db).
  { inversion Hr as [h' s a' o r' Hs Ho Hf|i' h' a' r' Hi Hh Hf]; subst;
      unfold send_money, bind, raise, try_except, find_one, users in *; simpl.
    - destruct s; [done|]. simpl. rewrite Ho, Hf. simpl.
      by rewrite bool_decide_eq_false_2.
    - rewrite Hi. destruct h'; [done|]. simpl. rewrite Hf. simpl.
      by rewrite bool_decide_eq_false_2. }
  rewrite Hstep. unfold bind, lift, getitem, ret.
  destruct (user !! "_id") as [from_id|] eqn:Hu; [|left; by eexists].
  destruct (str from_id) as [fromUser|e] eqn:Hfrom; [|left; by eexists].
  destruct (r !! "_id") as [to_id|] eqn:Hto; [|left; by eexists].
  destruct (str to_id) as [toUser|e] eqn:Htou; [|left; by eexists].
  destruct (existsb (field_is "_id" (VOid new_id)) (ledger db)) eqn:Hfresh.
  - left. rewrite insert_one_duplicate by done. by eexists.
  - right. exists r, from_id, to_id, fromUser, toUser.
    split_and!; try done.
    + unfold ledger in *. by rewrite insert_one_fresh.
    + apply ledger_insert.
    + unfold users. rewrite coll_insert. by destruct (decide _).
Qed.

(** ** What every reachable database satisfies *)

Lemma get_current_user_db SECRET_KEY token now db :
  snd (get_current_user SECRET_KEY token now db) = db.
Proof.
  unfold get_current_user, try_except, bind, lift, raise, ret, find_one.
  destruct (jwt_decode _ _ _) as [claims|[]]; simpl; try done.
  destruct (claims !! "sub") as [[]|]; simpl; try done.
  destruct (ObjectId_of_str _); simpl; try done.
  destruct (List.find _ _); simpl; try done.
  by destruct (bool_decide _).
Qed.

Lemma resolves_stored db payload r : resolves db payload r → r ∈ users db.
Proof. destruct 1 as [????? _ _ Hf|???? _ _ Hf]; by apply find_field_is_Some in Hf as [? _]. Qed.

Lemma refers_to_users_mono db db' t :
  (∀ d, d ∈ users db → d ∈ users db') →
  refers_to_users db t → refers_to_users db' t.
Proof.
  intros Hsub (s & r & so & ro & Hs & Hr & ?). exists s, r, so, ro. split_and!; tauto || auto.
Qed.

Lemma field_values_app k (l : list (gmap string value)) d :
  field_values k (l ++ [d]) = field_values k l ++ [d !! k].
Proof. unfold field_values. by rewrite fmap_app. Qed.

Lemma NoDup_snoc {A} (l : list A) x : NoDup l → x ∉ l → NoDup (l ++ [x]).
Proof.
  intros Hl Hx. apply NoDup_app. split_and!; [done| |apply NoDup_singleton].
  intros y Hy ->%list_elem_of_singleton. done.
Qed.

Lemma UserCreate_errors_nil EmailStr payload :
  UserCreate_errors EmailStr payload = [] →
  handle_pattern (UserCreate.handle payload) = true
  ∧ EmailStr (UserCreate.email payload) = true.
Proof.
  unfold UserCreate_errors.
  destruct (handle_pattern _), (EmailStr _); simpl; try discriminate. done.
Qed.

Lemma stored_user_ok pwd_context_hash payload now salt new_id :
  handle_pattern (UserCreate.handle payload) = true →
  user_ok (stored_user pwd_context_hash payload now salt new_id).
Proof.
  intros Hh. exists new_id, (UserCreate.handle payload), (lower (UserCreate.email payload)).
  split_and!; try reflexivity; try done; try (by eexists).
  apply lower_idem.
Qed.

Lemma reachable_keeps SECRET_KEY pwd_context_hash EmailStr db :
  reachable SECRET_KEY pwd_context_hash EmailStr db →
  Forall user_ok (users db)
  ∧ users_unique db
  ∧ ledger_ok db
  ∧ Forall (refers_to_users db) (ledger db)
  ∧ NoDup (field_values "_id" (ledger db)).
Proof.
  induction 1 as [|db payload now now_token salt new_id _ IH
                 |db credentials payload now now_tx new_id _ IH].
  - split_and!; try reflexivity; try constructor; try apply NoDup_nil_2.
    repeat split; apply NoDup_nil_2.
  - destruct IH as (Hu & (Hh & He & Hi) & Hl & Hr & Hn).
    unfold post_auth_signup.
    destruct (UserCreate_errors EmailStr payload) eqn:Hv; [|done].
    apply UserCreate_errors_nil in Hv as [Hpat _].
    rewrite run_snd.
    destruct (signup_cases SECRET_KEY pwd_context_hash payload now now_token salt new_id db)
      as [[_ ->]|[(_ & _ & ->)|[(_ & _ & _ & ->)|(Hfh & Hfe & Hfi & db' & -> & Husers & Hledger)]]];
      try done.
    simpl.
    assert (Hsub : ∀ d, d ∈ users db → d ∈ users db').
    { intros d Hd. rewrite Husers. apply elem_of_app. by left. }
    split_and!.
    + rewrite Husers. apply Forall_app. split; [done|].
      apply Forall_singleton. by apply stored_user_ok.
    + unfold users_unique. rewrite Husers, !field_values_app. split_and!.
      * apply NoDup_snoc; [done|]. by apply find_None_field_values.
      * apply NoDup_snoc; [done|]. by apply find_None_field_values.
      * apply NoDup_snoc; [done|]. by apply existsb_false_field_values.
    + unfold ledger_ok. by rewrite Hledger.
    + rewrite Hledger. eapply Forall_impl; [exact Hr|].
      intros t. by apply refers_to_users_mono.
    + by rewrite Hledger.
  - destruct IH as (Hu & Huniq & Hl & Hr & Hn).
    unfold post_transaction_send, authenticated.
    pose proof (get_current_user_db SECRET_KEY credentials now db) as Hdb.
    destruct (get_current_user _ _ _ _) as [[user|e] db1] eqn:Hauth;
      simpl in Hdb; subst db1; [|done].
    apply get_current_user_Ok in Hauth as (_ & Huser & _).
    unfold TransactionCreate_errors.
    destruct (gt0 _) eqn:Hpos; [|done].
    rewrite run_snd.
    destruct (send_money_cases payload user now_tx new_id db)
      as [[e ->]|(r & from_id & to_id & fromUser & toUser & Hres & Hfrom & Hsf & Hto & Hst
                  & Hfresh & -> & Hledger & Husers)]; [done|].
    simpl.
    rewrite Forall_forall in Hu.
    destruct (Hu user Huser) as (so & ? & ? & Hso & _).
    destruct (Hu r (resolves_stored _ _ _ Hres)) as (ro & ? & ? & Hro & _).
    rewrite Hso in Hfrom. injection Hfrom as <-. injection Hsf as <-.
    rewrite Hro in Hto. injection Hto as <-. injection Hst as <-.
    split_and!.
    + rewrite Husers. by apply Forall_forall.
    + unfold users_unique. by rewrite Husers.
    + apply ledger_ok_app; [done|]. by rewrite stored_tx_ok.
    + rewrite Hledger. apply Forall_app. split.
      * eapply Forall_impl; [exact Hr|]. intros t.
        apply refers_to_users_mono. by rewrite Husers.
      * apply Forall_singleton. exists user, r, so, ro.
        rewrite Husers. split_and!; try done.
        by apply (resolves_stored _ _ _ Hres).
    + rewrite Hledger, field_values_app. apply NoDup_snoc; [done|].
      by apply existsb_false_field_values.
Qed.

(** X3.  Every database the routes can bring about from the empty one keeps the
    invariants of the data model: each user record has an ObjectId, a handle
    that matches the pattern and a lower-case email; handles, emails and
    user identifiers are pairwise different; each ledger record has an
    ObjectId and a positive amount, names two stored users as sender and
    receiver, and no two ledger records share an identifier. *)
Theorem reachable_invariants SECRET_KEY pwd_context_hash EmailStr db :
  reachable SECRET_KEY pwd_context_hash EmailStr db →
  Forall user_ok (users db)
  ∧ users_unique db
  ∧ ledger_ok db
  ∧ Forall (refers_to_users db) (ledger db)
  ∧ NoDup (field_values "_id" (ledger db)).
Proof.
  induction 1 as [|db payload now now_token salt new_id _ IH
                 |db credentials payload now now_tx new_id _ IH].
  - split_and!; try reflexivity; try constructor; try apply NoDup_nil_2.
    repeat split; apply NoDup_nil_2.
  - destruct IH as (Hu & (Hh & He & Hi) & Hl & Hr & Hn).
    unfold post_auth_signup.
    destruct (UserCreate_errors EmailStr payload) eqn:Hv; [|done].
    apply UserCreate_errors_nil in Hv as [Hpat _].
    rewrite run_snd.
    destruct (signup_cases SECRET_KEY pwd_context_hash payload now now_token salt new_id db)
      as [[_ ->]|[(_ & _ & ->)|[(_ & _ & _ & ->)|(Hfh & Hfe & Hfi & db' & -> & Husers & Hledger)]]];
      try done.
    simpl.
    assert (Hsub : ∀ d, d ∈ users db → d ∈ users db').
    { intros d Hd. rewrite Husers. apply elem_of_app. by left. }
    split_and!.
    + rewrite Husers. apply Forall_app. split; [done|].
      apply Forall_singleton. by apply stored_user_ok.
    + unfold users_unique. rewrite Husers, !field_values_app. split_and!.
      * apply NoDup_snoc; [done|]. by apply find_None_field_values.
      * apply NoDup_snoc; [done|]. by apply find_None_field_values.
      * apply NoDup_snoc; [done|]. by apply existsb_false_field_values.
    + unfold ledger_ok. by rewrite Hledger.
    + rewrite Hledger. eapply Forall_impl; [exact Hr|].
      intros t. by apply refers_to_users_mono.
    + by rewrite Hledger.
  - destruct IH as (Hu & Huniq & Hl & Hr & Hn).
    unfold post_transaction_send, authenticated.
    pose proof (get_current_user_db SECRET_KEY credentials now db) as Hdb.
    destruct (get_current_user _ _ _ _) as [[user|e] db1] eqn:Hauth;
      simpl in Hdb; subst db1; [|done].
    apply get_current_user_Ok in Hauth as (_ & Huser & _).
    unfold TransactionCreate_errors.
    destruct (gt0 _) eqn:Hpos; [|done].
    rewrite run_snd.
    destruct (send_money_cases payload user now_tx new_id db)
      as [[e ->]|(r & from_id & to_id & fromUser & toUser & Hres & Hfrom & Hsf & Hto & Hst
                  & Hfresh & -> & Hledger & Husers)]; [done|].
    simpl.
    rewrite Forall_forall in Hu.
    destruct (Hu user Huser) as (so & ? & ? & Hso & _).
    destruct (Hu r (resolves_stored _ _ _ Hres)) as (ro & ? & ? & Hro & _).
    rewrite Hso in Hfrom. injection Hfrom as <-. injection Hsf as <-.
    rewrite Hro in Hto. injection Hto as <-. injection Hst as <-.
    split_and!.
    + rewrite Husers. by apply Forall_forall.
    + unfold users_unique. by rewrite Husers.
    + apply ledger_ok_app; [done|]. by rewrite stored_tx_ok.
    + rewrite Hledger. apply Forall_app. split.
      * eapply Forall_impl; [exact Hr|]. intros t.
        apply refers_to_users_mono. by rewrite Husers.
      * apply Forall_singleton. exists user, r, so, ro.
        rewrite Husers. split_and!; try done.
        by apply (resolves_stored _ _ _ Hres).
    + rewrite Hledger, field_values_app. apply NoDup_snoc; [done|].
      by apply existsb_false_field_values.
Qed.

(** ** The authentication dependency, case by case *)



(** X6.  A token [create_access_token] issued for a stored user is good for that
    user at every time whose second is not after the second of expiry, and
    from the next second on the dependency answers 401 "Token decode
    error". *)
Theorem issued_token_lifetime SECRET_KEY (o : ObjectId) issued now db d :
  List.find (field_is "_id" (VOid o)) (users db) = Some d →
  let token := create_access_token SECRET_KEY {[ "sub" := VStr (oid_hex o) ]} None issued in
  let expiry := issued + timedelta_minutes ACCESS_TOKEN_EXPIRE_MINUTES in
  get_current_user SECRET_KEY token now db
  = if timegm expiry <? timegm now
    then (Raise (HTTPException 401 "Token decode error"), db)
    else (Ok d, db).
Proof.
  intros Hd token expiry. subst token expiry.
  destruct (_ <? _) eqn:E.
  - rewrite create_access_token_claims.
    unfold get_current_user, try_except, bind, lift.
    by rewrite jwt_decode_issued, E.
  - apply get_current_user_issued; [|done]. by apply Z.ltb_ge.
Qed.


(** ** Logging in *)

Lemma find_app_None {A} (p : A → bool) (l l' : list A) :
  List.find p l = None → List.find p (l ++ l') = List.find p l'.
Proof.
  induction l as [|x l IH]; simpl; [done|].
  destruct (p x); [discriminate|]. exact IH.
Qed.



(** X8.  [login] tells a caller nothing about which half was wrong: an email no
    user has and a password that does not verify against the stored hash
    both raise the same 400 "Invalid credentials", and neither writes. *)
Theorem login_refusals_alike SECRET_KEY pwd_context_verify payload now_token db :
  let stored :=
    List.find (field_is "email" (VStr (lower (UserLogin.email payload)))) (users db) in
  (stored = None →
   login SECRET_KEY pwd_context_verify payload now_token db
   = (Raise (HTTPException 400 "Invalid credentials"), db))
  ∧ (∀ d h,
       stored = Some d →
       d !! "password_hash" = Some (VStr h) →
       pwd_context_verify (UserLogin.password payload) h = false →
       login SECRET_KEY pwd_context_verify payload now_token db
       = (Raise (HTTPException 400 "Invalid credentials"), db)).
Proof.
  intros stored. subst stored. split.
  - intros Hf. unfold login, bind, find_one, users in *. by rewrite Hf.
  - intros d h Hf Hh Hv.
    unfold login, bind, lift, find_one, users in *. rewrite Hf.
    assert (Hne : d ≠ ∅) by (intros ->; by rewrite lookup_empty in Hh).
    simpl. rewrite bool_decide_eq_false_2 by done.
    unfold get_or. rewrite Hh. simpl. by rewrite Hv.
Qed.


(** ** Profiles and handle checks *)


(** X11.  [check_handle] reports a handle available exactly when no stored user
    has it, which is exactly when [signup] would not refuse it as taken; it
    writes nothing, and once a signup for the handle has succeeded it
    reports the handle as taken.  The handle pattern plays no part in the
    check. *)
Theorem check_handle_agrees_with_signup SECRET_KEY pwd_context_hash
    payload now now_token salt new_id db :
  let h := UserCreate.handle payload in
  let outcome := signup SECRET_KEY pwd_context_hash payload now now_token salt new_id db in
  ∃ a,
    check_handle h db = (Ok (HandleCheck.mk h a), db)
    ∧ (a = true ↔ Some (VStr h) ∉ field_values "handle" (users db))
    ∧ (a = false ↔ outcome = (Raise (HTTPException 400 "Handle already taken"), db))
    ∧ (∀ b db', outcome = (Ok b, db') →
                check_handle h db' = (Ok (HandleCheck.mk h false), db')).
Proof.
  intros h outcome.
  destruct (List.find (field_is "handle" (VStr h)) (users db)) as [d|] eqn:Hf.
  - exists false. split_and!.
    + unfold check_handle, bind, find_one, ret, users in *. by rewrite Hf.
    + split; [done|]. intros Hn. apply find_None_field_values in Hn. congruence.
    + split; [|done]. intros _. by eapply signup_handle_taken.
    + intros b db'. subst outcome. erewrite signup_handle_taken by done. discriminate.
  - exists true. split_and!.
    + unfold check_handle, bind, find_one, ret, users in *. by rewrite Hf.
    + split; [|done]. intros _. by apply find_None_field_values.
    + split; [done|]. subst outcome.
      destruct (signup_cases SECRET_KEY pwd_context_hash payload now now_token salt new_id db)
        as [[[? Hd] _]|[(_ & _ & ->)|[(_ & _ & _ & ->)|(_ & _ & _ & db' & -> & _)]]];
        try discriminate.
      fold h in Hd. congruence.
    + intros b db' Hout. subst outcome.
      destruct (signup_cases SECRET_KEY pwd_context_hash payload now now_token salt new_id db)
        as [[_ E]|[(_ & _ & E)|[(_ & _ & _ & E)|(_ & _ & _ & db'' & E & Hu & _)]]];
        rewrite E in Hout; try discriminate.
      injection Hout as _ <-.
      unfold check_handle, bind, find_one, ret. fold (users db''). rewrite Hu.
      rewrite find_app_None by done. simpl. unfold field_is.
      by rewrite bool_decide_eq_true_2.
Qed.

(** ** Who writes *)

(** X12.  Only [signup] and [send_money] write: [get_current_user], [login],
    [get_profile], [check_handle], [get_history] and [dashboard_stats] hand
    the database back as they found it, whatever they are given and however
    they end. *)
Theorem readers_leave_the_database SECRET_KEY pwd_context_verify db :
  (∀ token now, snd (get_current_user SECRET_KEY token now db) = db)
  ∧ (∀ payload now_token, snd (login SECRET_KEY pwd_context_verify payload now_token db) = db)
  ∧ (∀ handle, snd (get_profile handle db) = db)
  ∧ (∀ handle, snd (check_handle handle db) = db)
  ∧ (∀ userId user, snd (get_history userId user db) = db)
  ∧ (∀ user, snd (dashboard_stats user db) = db).
Proof.
  split_and!.
  - intros. apply get_current_user_db.
  - intros payload now_token.
    unfold login, bind, raise, ret, find_one, lift.
    destruct (List.find _ _) as [d|]; simpl; [|done].
    destruct (bool_decide _); simpl; [done|].
    destruct (verify _ _ _) as [[]|]; simpl; try done.
    destruct (getitem d "_id") as [v|]; simpl; [|done].
    destruct (str v) as [id|]; simpl; [|done].
    by destruct (user_view id d).
  - intros handle.
    unfold get_profile, bind, raise, ret, find_one, lift.
    destruct (List.find _ _) as [d|]; simpl; [|done].
    destruct (bool_decide _); simpl; [done|].
    destruct (getitem d "_id") as [v|]; simpl; [|done].
    destruct (str v) as [id|]; simpl; [|done].
    by destruct (user_view id d).
  - intros handle. reflexivity.
  - intros userId user.
    unfold get_history, bind, raise, ret, find_or_sorted, lift.
    destruct (getitem user "_id") as [v|]; simpl; [|done].
    destruct (str v) as [id|]; simpl; [|done].
    destruct (negb _); simpl; [done|].
    by destruct (for_each rekey _).
  - intros user.
    unfold dashboard_stats, aggregate_stats, bind, raise, ret, lift.
    destruct (getitem user "_id") as [v|]; simpl; [|done].
    destruct (str v) as [id|]; simpl; [|done].
    destruct (py_float _); simpl; [|done].
    destruct (py_float _); simpl; [|done].
    destruct (py_int _); simpl; [|done].
    by destruct (py_int _).
Qed.

(** ** Letter case *)

Lemma ObjectId_of_str_lower s : ObjectId_of_str (lower s) = ObjectId_of_str s.
Proof. unfold ObjectId_of_str. by rewrite lower_idem. Qed.

(** X13.  A receiver id is read without regard to letter case: [send_money]
    behaves on [toUserId = s] as on its lower-case form, so the upper-case
    spelling of a user's id reaches that user.  The [userId] of the history
    path is compared as a string: a spelling that differs from the printed
    id only in case is refused with 403. *)
Theorem id_case_in_send_and_history h s a user now new_id db o userId :
  send_money (TransactionCreate.mk h (Some s) a) user now new_id db
  = send_money (TransactionCreate.mk h (Some (lower s)) a) user now new_id db
  ∧ (lower s = oid_hex o → ObjectId_of_str s = Some o)
  ∧ (user !! "_id" = Some (VOid o) → lower userId = oid_hex o → userId ≠ oid_hex o →
     get_history userId user db = (Raise (HTTPException 403 "Forbidden"), db)).
Proof.
  split_and!.
  - assert (E1 : truthy_str (Some (lower s)) = truthy_str (Some s)) by by destruct s.
    assert (E2 : ObjectId_of_str (default "" (Some (lower s)))
                 = ObjectId_of_str (default "" (Some s)))
      by apply ObjectId_of_str_lower.
    unfold send_money.
    cbn [TransactionCreate.toUserId TransactionCreate.toHandle TransactionCreate.amount].
    by rewrite E1, E2.
  - intros Hs. rewrite <- ObjectId_of_str_lower, Hs. apply ObjectId_of_str_hex.
  - intros Hu _ Hne. by apply get_history_other with (o := o).
Qed.

(** ** Duplicates after a signup *)


(** ** Statistics and history across a send *)

Lemma dashboard_stats_eq user o db :
  user !! "_id" = Some (VOid o) →
  ledger_ok db →
  dashboard_stats user db
  = (Ok (BDict {[ "total_sent" :=
                    BVal (VFloat (float_sum (amount_of <$> filter (sent_by (oid_hex o)) (ledger db))));
                  "total_received" :=
                    BVal (VFloat (float_sum (amount_of <$> filter (received_by (oid_hex o)) (ledger db))));
                  "count_sent" :=
                    BVal (VInt (Z.of_nat (length (filter (sent_by (oid_hex o)) (ledger db)))));
                  "count_received" :=
                    BVal (VInt (Z.of_nat (length (filter (received_by (oid_hex o)) (ledger db))))) ]}),
     db).
Proof.
  intros Hu Hok%ledger_ok_Forall.
  set (u := oid_hex o).
  rewrite <- (filter_sent_involves u (ledger db)), <- (filter_received_involves u (ledger db)).
  unfold dashboard_stats, aggregate_stats, bind, lift, getitem. rewrite Hu. simpl.
  rewrite !filter_or_is_involves. fold (ledger db). fold u.
  destruct (filter (involves u) (ledger db)) as [|t matched] eqn:Hm; [reflexivity|].
  assert (Hmok : Forall (λ t, tx_ok t = true) (t :: matched)).
  { rewrite <- Hm. by apply Forall_filter_keep. }
  set (l := t :: matched) in *.
  change (get_or _ "total_sent" _)
    with (sum_of (cond_eq "fromUser" (VStr u) (λ d, get d "amount") (λ _, VInt 0)) l).
  change (get_or _ "total_received" _)
    with (sum_of (cond_eq "toUser" (VStr u) (λ d, get d "amount") (λ _, VInt 0)) l).
  change (get_or _ "count_sent" _)
    with (sum_of (cond_eq "fromUser" (VStr u) (λ _, VInt 1) (λ _, VInt 0)) l).
  change (get_or _ "count_received" _)
    with (sum_of (cond_eq "toUser" (VStr u) (λ _, VInt 1) (λ _, VInt 0)) l).
  rewrite !py_float_sum, !py_int_count by done.
  reflexivity.
Qed.

Lemma float_sum_snoc l a : float_sum (l ++ [a]) = float_add (float_sum l) a.
Proof. unfold float_sum. by rewrite fold_left_app. Qed.

Lemma filter_sent_snoc u (l : list (gmap string value)) f t a now new_id :
  filter (sent_by u) (l ++ [stored_tx f t a now new_id])
  = filter (sent_by u) l ++ (if decide (f = u) then [stored_tx f t a now new_id] else []).
Proof.
  rewrite filter_app. f_equal. rewrite filter_cons, filter_nil.
  destruct (decide (sent_by u _)) as [H|H], (decide (f = u)) as [E|E]; try done.
  - exfalso. apply E. unfold sent_by in H. by injection H.
  - exfalso. apply H. subst. reflexivity.
Qed.

Lemma filter_received_snoc u (l : list (gmap string value)) f t a now new_id :
  filter (received_by u) (l ++ [stored_tx f t a now new_id])
  = filter (received_by u) l ++ (if decide (t = u) then [stored_tx f t a now new_id] else []).
Proof.
  rewrite filter_app. f_equal. rewrite filter_cons, filter_nil.
  destruct (decide (received_by u _)) as [H|H], (decide (t = u)) as [E|E]; try done.
  - exfalso. apply E. unfold received_by in H. by injection H.
  - exfalso. apply H. subst. reflexivity.
Qed.

(** X15.  What the record a send appends does to the statistics of a user [u]:
    when [u] is the sender, [total_sent] becomes the old total plus the
    amount (in binary64) and [count_sent] grows by one; when [u] is the
    receiver the same happens to [total_received] and [count_received]; a
    transfer to oneself does both, and a transfer between others changes
    nothing. *)
Theorem stats_after_send user o db f t a now new_id :
  user !! "_id" = Some (VOid o) →
  ledger_ok db →
  gt0 a = true →
  let u := oid_hex o in
  let db' := <["transaction" := ledger db ++ [stored_tx f t a now new_id]]> db in
  let sent := filter (sent_by u) (ledger db) in
  let received := filter (received_by u) (ledger db) in
  dashboard_stats user db'
  = (Ok (BDict {[ "total_sent" :=
                    BVal (VFloat (if decide (f = u)
                                  then float_add (float_sum (amount_of <$> sent)) a
                                  else float_sum (amount_of <$> sent)));
                  "total_received" :=
                    BVal (VFloat (if decide (t = u)
                                  then float_add (float_sum (amount_of <$> received)) a
                                  else float_sum (amount_of <$> received)));
                  "count_sent" :=
                    BVal (VInt (Z.of_nat (length sent) + (if decide (f = u) then 1 else 0)));
                  "count_received" :=
                    BVal (VInt (Z.of_nat (length received)
                                + (if decide (t = u) then 1 else 0))) ]}),
     db').
Proof.
  intros Hu Hok Hpos u db' sent received.
  assert (Hok' : ledger_ok db').
  { apply ledger_ok_app; [done|]. by rewrite stored_tx_ok. }
  rewrite (dashboard_stats_eq user o db' Hu Hok').
  subst db'. rewrite ledger_insert. fold u.
  rewrite filter_sent_snoc, filter_received_snoc. fold sent. fold received.
  destruct (decide (f = u)), (decide (t = u));
    rewrite ?app_nil_r, ?fmap_app, ?length_app; simpl;
    rewrite ?float_sum_snoc, ?Z.add_0_r, ?Nat2Z.inj_add; reflexivity.
Qed.

(** X16.  A send between two other users does not show in a user's history:
    [get_history] returns for [userId] what it returned before the record
    was appended. *)
Theorem history_ignores_others userId user db f t a now new_id :
  f ≠ userId → t ≠ userId →
  let db' := <["transaction" := ledger db ++ [stored_tx f t a now new_id]]> db in
  fst (get_history userId user db') = fst (get_history userId user db).
Proof.
  intros Hf Ht db'.
  unfold get_history, bind, raise, ret, find_or_sorted, lift.
  destruct (getitem user "_id") as [v|]; simpl; [|done].
  destruct (str v) as [id|]; simpl; [|done].
  destruct (negb _); simpl; [done|].
  subst db'. rewrite coll_insert. destruct (decide _); [|done].
  fold (ledger db). rewrite filter_app.
  rewrite (filter_cons _ (stored_tx f t a now new_id)), filter_nil.
  destruct (decide _) as [H|H]; [|rewrite app_nil_r; by destruct (for_each rekey _)].
  exfalso. apply or_is_involves in H as [H|H].
  - apply Hf. unfold sent_by in H. by injection H.
  - apply Ht. unfold received_by in H. by injection H.
Qed.

(** ** The link behind the QR code *)

Lemma rstrip_slash_snoc s : rstrip_slash (s +:+ "/") = rstrip_slash s.
Proof.
  induction s as [|c s IH]; [reflexivity|].
  simpl. by rewrite IH.
Qed.

Lemma rstrip_slash_no_trailing s p : rstrip_slash s ≠ p +:+ "/".
Proof.
  revert p. induction s as [|c s IH]; intros p; simpl.
  - by destruct p.
  - destruct (rstrip_slash s) as [|c' r] eqn:E.
    + destruct (Ascii.eqb c "/") eqn:Ec; [by destruct p|].
      destruct p as [|c0 [|c1 p]]; simpl; intros [= ]; subst.
      by rewrite Ascii.eqb_refl in Ec.
    + destruct p as [|c0 p]; simpl; [intros [= ]|].
      intros [= -> Hp]. by apply (IH p).
Qed.

(** X17.  The link never doubles the slash before the handle: trailing slashes of
    the configured base are dropped before "/" and the handle are appended,
    so a base with and without a final slash give the same link; without
    [APP_BASE_URL] the link is "https://tappay.me/" followed by the
    handle. *)
Theorem qr_link_slashes base handle :
  qr_link (Some (base +:+ "/")) handle = qr_link (Some base) handle
  ∧ qr_link None handle = "https://tappay.me/" +:+ handle
  ∧ ∃ stem, qr_link (Some base) handle = stem +:+ "/" +:+ handle
            ∧ ∀ p, stem ≠ p +:+ "/".
Proof.
  split_and!.
  - unfold qr_link. simpl. by rewrite rstrip_slash_snoc.
  - reflexivity.
  - exists (rstrip_slash base). split; [reflexivity|]. apply rstrip_slash_no_trailing.
Qed.

(** ** A new user *)

Lemma oid_hex_inj o1 o2 : oid_hex o1 = oid_hex o2 → o1 = o2.
Proof. apply oid_ext. Qed.

Lemma filter_none {A} (P : A → Prop) `{∀ x, Decision (P x)} (l : list A) :
  (∀ x, x ∈ l → ¬ P x) → filter P l = [].
Proof.
  induction l as [|x l IH]; intros Hl; [done|].
  rewrite filter_cons. destruct (decide (P x)) as [Hx|Hx].
  - exfalso. eapply Hl; [|done]. apply elem_of_cons. by left.
  - apply IH. intros y Hy. apply Hl. apply elem_of_cons. by right.
Qed.

Lemma get_history_nothing user o db :
  user !! "_id" = Some (VOid o) →
  filter (involves (oid_hex o)) (ledger db) = [] →
  get_history (oid_hex o) user db = (Ok (BList []), db).
Proof.
  intros Hu He.
  unfold get_history, bind, lift, getitem, find_or_sorted, ret. rewrite Hu. simpl.
  rewrite String.eqb_refl. simpl.
  rewrite filter_or_is_involves. fold (ledger db). by rewrite He.
Qed.

(** X18.  In a reachable database a user who has just signed up starts from
    nothing: no ledger record names the new identifier, so the user's
    history is the empty list and the four statistics are zero. *)
Theorem new_user_starts_empty SECRET_KEY pwd_context_hash EmailStr
    payload now now_token salt new_id db b db' :
  reachable SECRET_KEY pwd_context_hash EmailStr db →
  signup SECRET_KEY pwd_context_hash payload now now_token salt new_id db = (Ok b, db') →
  let created := stored_user pwd_context_hash payload now salt new_id in
  filter (involves (oid_hex new_id)) (ledger db') = []
  ∧ get_history (oid_hex new_id) created db' = (Ok (BList []), db')
  ∧ dashboard_stats created db'
    = (Ok (BDict {[ "total_sent" := BVal (VFloat float_zero);
                    "total_received" := BVal (VFloat float_zero);
                    "count_sent" := BVal (VInt 0);
                    "count_received" := BVal (VInt 0) ]}), db').
Proof.
  intros Hreach Hout created.
  destruct (reachable_keeps _ _ _ _ Hreach) as (_ & _ & Hok & Hrefs & _).
  destruct (signup_cases SECRET_KEY pwd_context_hash payload now now_token salt new_id db)
    as [[_ E]|[(_ & _ & E)|[(_ & _ & _ & E)|(_ & _ & Hfresh & db'' & E & _ & Hledger)]]];
    rewrite E in Hout; try discriminate.
  injection Hout as _ <-.
  assert (Hnone : filter (involves (oid_hex new_id)) (ledger db'') = []).
  { rewrite Hledger. apply filter_none.
    rewrite Forall_forall in Hrefs. intros t Ht Hinv.
    destruct (Hrefs t Ht) as (s & r & so & ro & Hs & Hr & Hso & Hro & Hfrom & Hto).
    apply existsb_false_field_values in Hfresh. apply Hfresh.
    unfold field_values. apply list_elem_of_fmap.
    destruct Hinv as [Hi|Hi]; unfold sent_by, received_by in Hi.
    - rewrite Hfrom in Hi. injection Hi as Hi. apply oid_hex_inj in Hi as ->. by exists s.
    - rewrite Hto in Hi. injection Hi as Hi. apply oid_hex_inj in Hi as ->. by exists r. }
  split_and!; [done| |].
  - by apply get_history_nothing.
  - rewrite (dashboard_stats_eq created new_id db''); [|reflexivity|].
    + rewrite <- (filter_sent_involves (oid_hex new_id)),
        <- (filter_received_involves (oid_hex new_id)), Hnone.
      reflexivity.
    + unfold ledger_ok in *. by rewrite Hledger.
Qed.

(** ** The newest record *)

(** X19.  A send stamped later than every record of the ledger comes first in the
    history of its sender and of its receiver. *)
Theorem latest_send_heads_history user o db f t a now new_id :
  user !! "_id" = Some (VOid o) →
  ledger_ok db →
  gt0 a = true →
  f = oid_hex o ∨ t = oid_hex o →
  (∀ x ts, x ∈ ledger db → sort_key "timestamp" x = Some ts → ts < now) →
  let tx := stored_tx f t a now new_id in
  let db' := <["transaction" := ledger db ++ [tx]]> db in
  ∃ older,
    get_history (oid_hex o) user db' = (Ok (BList (of_doc <$> public tx :: older)), db').
Proof.
  intros Hu Hok Hpos Hparty Hlate tx db'.
  assert (Hok' : ledger_ok db').
  { apply ledger_ok_app; [done|]. subst tx. by rewrite stored_tx_ok. }
  rewrite (get_history_own user o db' Hu Hok').
  subst db'. rewrite ledger_insert.
  set (shown := filter (involves (oid_hex o)) (ledger db ++ [tx])).
  assert (Hin : tx ∈ merge_sort (desc_by "timestamp") shown).
  { rewrite merge_sort_Permutation. subst shown. apply list_elem_of_filter. split.
    - destruct Hparty as [->| ->]; [left|right]; reflexivity.
    - apply elem_of_app. right. by apply list_elem_of_singleton. }
  pose proof (StronglySorted_merge_sort (desc_by "timestamp") shown) as Hsorted.
  assert (Hsub : ∀ x, x ∈ merge_sort (desc_by "timestamp") shown → x ∈ ledger db ∨ x = tx).
  { intros x. rewrite merge_sort_Permutation. subst shown.
    intros [_ Hx]%list_elem_of_filter.
    apply elem_of_app in Hx as [Hx|Hx%list_elem_of_singleton]; auto. }
  destruct (merge_sort (desc_by "timestamp") shown) as [|h rest]; [by apply elem_of_nil in Hin|].
  exists (public <$> rest). simpl.
  apply elem_of_cons in Hin as [<-|Hin]; [reflexivity|].
  apply StronglySorted_inv in Hsorted as [_ Hall].
  rewrite Forall_forall in Hall. specialize (Hall tx Hin).
  unfold desc_by in Hall.
  change (sort_key "timestamp" tx) with (Some now) in Hall.
  destruct (Hsub h) as [Hh| ->]; [apply elem_of_cons; by left| |reflexivity].
  destruct (sort_key "timestamp" h) as [ts|] eqn:Hts; [|done].
  simpl in Hall. specialize (Hlate h ts Hh Hts). lia.
Qed.

(** ** Which amounts pass *)

(** X20.  [gt=0] on a float lets through the positive finite numbers and positive
    infinity, and nothing else: both zeros, every negative number, negative
    infinity and NaN leave an error for [amount]. *)
Theorem amount_validation toHandle toUserId a :
  TransactionCreate_errors (TransactionCreate.mk toHandle toUserId a) = []
  ↔ a = S754_infinity false ∨ ∃ m e, a = S754_finite false m e.
Proof.
  unfold TransactionCreate_errors, gt0, SFltb, float_zero. simpl.
  destruct a as [s|[]| |[] m e]; simpl; split; try discriminate; try done;
    try (intros [?|(? & ? & ?)]; discriminate); eauto.
Qed.

(** ** The further properties on the small deployment *)

Lemma reachable_invariants_witness :
  users_unique Fixture.db4
  ∧ Forall (refers_to_users Fixture.db4) (ledger Fixture.db4)
  ∧ NoDup (field_values "_id" (ledger Fixture.db4)).
Proof.
  destruct (reachable_invariants Fixture.secret Fixture.hash Fixture.any_email Fixture.db4)
    as (_ & Hu & _ & Hr & Hn).
  - unfold Fixture.db4, Fixture.db3, Fixture.db2, Fixture.db1, Fixture.db0.
    apply reachable_send, reachable_send, reachable_signup, reachable_signup,
      reachable_empty.
  - split_and!; assumption.
Defined.


Lemma issued_token_lifetime_witness :
  get_current_user Fixture.secret Fixture.ann_token 5000 Fixture.db2
  = (Ok Fixture.ann_doc, Fixture.db2)
  ∧ get_current_user Fixture.secret Fixture.ann_token 604802000 Fixture.db2
    = (Raise (HTTPException 401 "Token decode error"), Fixture.db2).
Proof.
  split.
  - apply (issued_token_lifetime Fixture.secret Fixture.ann_id 1001 5000 Fixture.db2
             Fixture.ann_doc).
    reflexivity.
  - apply (issued_token_lifetime Fixture.secret Fixture.ann_id 1001 604802000 Fixture.db2
             Fixture.ann_doc).
    reflexivity.
Defined.


Lemma login_refusals_alike_witness :
  login Fixture.secret Fixture.check (UserLogin.mk "nobody@x.com" "pw") 7000 Fixture.db2
  = (Raise (HTTPException 400 "Invalid credentials"), Fixture.db2)
  ∧ login Fixture.secret Fixture.check (UserLogin.mk "A@x.com" "wrong") 7000 Fixture.db2
    = (Raise (HTTPException 400 "Invalid credentials"), Fixture.db2).
Proof.
  split.
  - apply (login_refusals_alike Fixture.secret Fixture.check
             (UserLogin.mk "nobody@x.com" "pw") 7000 Fixture.db2).
    reflexivity.
  - apply (proj2 (login_refusals_alike Fixture.secret Fixture.check
                    (UserLogin.mk "A@x.com" "wrong") 7000 Fixture.db2)
             Fixture.ann_doc "s1$pw"); reflexivity.
Defined.



Lemma check_handle_agrees_with_signup_witness :
  check_handle "ann1" Fixture.db1 = (Ok (HandleCheck.mk "ann1" false), Fixture.db1)
  ∧ check_handle "bob_2" Fixture.db1 = (Ok (HandleCheck.mk "bob_2" true), Fixture.db1).
Proof.
  destruct (check_handle_agrees_with_signup Fixture.secret Fixture.hash Fixture.ann
              3000 3001 "s3" Fixture.bob_id Fixture.db1) as (a & Ha & _ & Htaken & _).
  destruct (check_handle_agrees_with_signup Fixture.secret Fixture.hash Fixture.bob
              2000 2001 "s2" Fixture.bob_id Fixture.db1) as (a' & Ha' & Hfree & _ & _).
  assert (a = false) as -> by (apply Htaken; reflexivity).
  assert (a' = true) as ->.
  { apply Hfree. apply find_None_field_values. reflexivity. }
  split; assumption.
Defined.

Lemma id_case_in_send_and_history_witness :
  send_money (TransactionCreate.mk None (Some "64B7F0000000000000000002") Fixture.one)
    Fixture.ann_doc 5001 Fixture.tx1_id Fixture.db2
  = send_money (TransactionCreate.mk None (Some "64b7f0000000000000000002") Fixture.one)
      Fixture.ann_doc 5001 Fixture.tx1_id Fixture.db2
  ∧ ObjectId_of_str "64B7F0000000000000000002" = Some Fixture.bob_id
  ∧ get_history "64B7F0000000000000000001" Fixture.ann_doc Fixture.db2
    = (Raise (HTTPException 403 "Forbidden"), Fixture.db2).
Proof.
  split_and!.
  - apply (id_case_in_send_and_history None "64B7F0000000000000000002" Fixture.one
             Fixture.ann_doc 5001 Fixture.tx1_id Fixture.db2 Fixture.bob_id "").
  - apply (id_case_in_send_and_history None "64B7F0000000000000000002" Fixture.one
             Fixture.ann_doc 5001 Fixture.tx1_id Fixture.db2 Fixture.bob_id "").
    reflexivity.
  - apply (id_case_in_send_and_history None "" Fixture.one
             Fixture.ann_doc 5001 Fixture.tx1_id Fixture.db2 Fixture.ann_id
             "64B7F0000000000000000001"); [reflexivity|reflexivity|discriminate].
Defined.


Lemma stats_after_send_witness :
  fst (dashboard_stats Fixture.ann_doc
         (<["transaction" := ledger Fixture.db2
              ++ [stored_tx (oid_hex Fixture.ann_id) (oid_hex Fixture.bob_id) Fixture.one 5001
                    Fixture.tx1_id]]> Fixture.db2))
  = Ok (BDict {[ "total_sent" := BVal (VFloat Fixture.one);
                 "total_received" := BVal (VFloat float_zero);
                 "count_sent" := BVal (VInt 1);
                 "count_received" := BVal (VInt 0) ]}).
Proof.
  rewrite (stats_after_send Fixture.ann_doc Fixture.ann_id Fixture.db2
             (oid_hex Fixture.ann_id) (oid_hex Fixture.bob_id) Fixture.one 5001
             Fixture.tx1_id); reflexivity.
Defined.

Lemma history_ignores_others_witness :
  fst (get_history (oid_hex Fixture.ann_id) Fixture.ann_doc
         (<["transaction" := ledger Fixture.db2
              ++ [stored_tx (oid_hex Fixture.bob_id) (oid_hex Fixture.bob_id) Fixture.one 5001
                    Fixture.tx1_id]]> Fixture.db2))
  = fst (get_history (oid_hex Fixture.ann_id) Fixture.ann_doc Fixture.db2).
Proof.
  apply (history_ignores_others (oid_hex Fixture.ann_id) Fixture.ann_doc Fixture.db2
           (oid_hex Fixture.bob_id) (oid_hex Fixture.bob_id) Fixture.one 5001 Fixture.tx1_id);
    discriminate.
Defined.

Lemma qr_link_slashes_witness :
  qr_link (Some ("https://pay.example/" +:+ "/")) "ann1"
  = qr_link (Some "https://pay.example/") "ann1".
Proof. apply (qr_link_slashes "https://pay.example/" "ann1"). Defined.

Lemma new_user_starts_empty_witness :
  get_history (oid_hex Fixture.bob_id)
    (stored_user Fixture.hash Fixture.bob 2000 "s2" Fixture.bob_id)
    (<["user" := users Fixture.db1
         ++ [stored_user Fixture.hash Fixture.bob 2000 "s2" Fixture.bob_id]]> Fixture.db1)
  = (Ok (BList []),
     <["user" := users Fixture.db1
         ++ [stored_user Fixture.hash Fixture.bob 2000 "s2" Fixture.bob_id]]> Fixture.db1).
Proof.
  assert (Hreach : reachable Fixture.secret Fixture.hash Fixture.any_email Fixture.db1).
  { unfold Fixture.db1, Fixture.db0. apply reachable_signup, reachable_empty. }
  pose proof (signup_ok Fixture.secret Fixture.hash Fixture.bob 2000 2001 "s2"
                Fixture.bob_id Fixture.db1 eq_refl eq_refl eq_refl) as Hout.
  apply (new_user_starts_empty _ _ _ _ _ _ _ _ _ _ _ Hreach Hout).
Defined.

Lemma amount_validation_witness :
  TransactionCreate_errors (TransactionCreate.mk None None (S754_infinity false)) = []
  ∧ TransactionCreate_errors (TransactionCreate.mk None None (S754_zero true)) ≠ [].
Proof.
  split.
  - apply (amount_validation None None (S754_infinity false)). by left.
  - intros H. apply (amount_validation None None (S754_zero true)) in H.
    destruct H as [H|(m & e & H)]; discriminate.
Defined.

Lemma latest_send_heads_history_witness :
  ∃ older,
    fst (get_history (oid_hex Fixture.ann_id) Fixture.ann_doc
           (<["transaction" := ledger Fixture.db3
                ++ [stored_tx (oid_hex Fixture.bob_id) (oid_hex Fixture.ann_id)
                      Fixture.two_and_half 6001 Fixture.tx2_id]]> Fixture.db3))
    = Ok (BList (of_doc <$> public (stored_tx (oid_hex Fixture.bob_id) (oid_hex Fixture.ann_id)
                                      Fixture.two_and_half 6001 Fixture.tx2_id) :: older)).
Proof.
  destruct (latest_send_heads_history Fixture.ann_doc Fixture.ann_id Fixture.db3
              (oid_hex Fixture.bob_id) (oid_hex Fixture.ann_id) Fixture.two_and_half 6001
              Fixture.tx2_id) as [older H].
  - reflexivity.
  - reflexivity.
  - reflexivity.
  - right. reflexivity.
  - intros x ts Hx.
    assert (Hl : ledger Fixture.db3
                 = [stored_tx (oid_hex Fixture.ann_id) (oid_hex Fixture.bob_id) Fixture.one
                      5001 Fixture.tx1_id]) by reflexivity.
    rewrite Hl in Hx. apply list_elem_of_singleton in Hx as ->.
    change (Some 5001 = Some ts → ts < 6001). intros [= <-]. lia.
  - exists older. by rewrite H.
Defined.
